(** * BoeBot rescue controller (Webots - Version/boebot_rescue.c)

    A shallow embedding of the controller's per-tick loop: the survivor
    classifier [is_survivor], the sensor scan, the state decision, the
    actuator stage and the start-up code of [main].

    Conventions.
    - A C [double] is a primitive binary64 float; [<] is [PrimFloat.ltb].
    - The C [int] counter [aid_deploy_counter] is a [Z]; it is only ever
      decremented while positive or set to 50, so no wrap-around occurs.
    - A [WbDeviceTag] is kept as a [bool]: [true] when the handle returned by
      [wb_robot_get_device] is non-zero.
    - Calls into the simulator and [printf] lines are recorded, in program
      order, in a trace of [Output]s.
    - The periodic debug line (step 5 of the loop) is diagnostic only and is
      left out of the trace. *)

From Stdlib Require Import ZArith List String Ascii Bool Lia Permutation.
From Stdlib Require Import Floats.PrimFloat.
Import ListNotations.

Set Warnings "-inexact-float".

Local Open Scope Z_scope.

(** ** Constants *)

Definition FORWARD_SPEED : float := 5.0%float.
Definition TURN_SPEED : float := 4.0%float.
Definition AID_DEPLOY_DURATION : Z := 50.
Definition OBSTACLE_DISTANCE_THRESHOLD : float := 0.3%float.
Definition TILT_THRESHOLD : float := 3.5%float.
Definition SURVIVOR_DETECTION_RANGE : float := 0.4%float.
Definition SURVIVOR_OBJECT_NAME : string := "SurvivorObstacle".
Definition EMITTER_CHANNEL : Z := 1.
Definition SURVIVOR_MESSAGE : string := "SURVIVOR_FOUND".

(** The value every entry of [ds_values] starts a tick with. *)
Definition NO_READING : float := 999.0%float.

(** ** Data *)

Inductive RobotState : Type :=
  | SEARCHING
  | AVOIDING_OBSTACLE
  | DEPLOYING_AID
  | ROBOT_TILTED.

Definition RobotState_eqb (a b : RobotState) : bool :=
  match a, b with
  | SEARCHING, SEARCHING
  | AVOIDING_OBSTACLE, AVOIDING_OBSTACLE
  | DEPLOYING_AID, DEPLOYING_AID
  | ROBOT_TILTED, ROBOT_TILTED => true
  | _, _ => false
  end.

(** A scene node as the supervisor API shows it: the [name] field is what
    [wb_supervisor_node_get_name] returns, [None] for a null [char*].  The
    [string] holds the bytes in memory; as a C string it ends at the first
    NUL byte, if any. *)
Record node : Type := { wb_supervisor_node_get_name : option string }.

(** [WbNodeRef]: [None] is the null reference. *)
Definition WbNodeRef : Type := option node.

Inductive Wheel : Type := LeftWheel | RightWheel.
Inductive Led : Type := LeftLed | RightLed.

(** The device handles [main] obtains, each [true] when non-zero. *)
Record Devices : Type := {
  left_motor : bool;
  right_motor : bool;
  ds_front : bool;
  ds_left : bool;
  ds_right : bool;
  accelerometer : bool;
  emitter : bool;
  left_led : bool;
  right_led : bool
}.

Definition distance_sensors (d : Devices) : list bool :=
  [ds_front d; ds_left d; ds_right d].

(** The [printf] lines of the program, with the values they format. *)
Inductive Line : Type :=
  | WarnDistanceSensorNotFound (i : nat)
  | WarnAccelerometerNotFound
  | ErrorEmitterNotFound
  | ControllerInitialized
  | SurvivorDetectedBySensor (i : nat)
  | AidDeploymentFinished
  | ChangeRobotTilted
  | ChangeSurvivorDetected
  | EmitterSent
  | EmitterCannotSend
  | ChangeObstacleDetected
  | ChangeClear
  | AvoidingTurningRight (l r : float)
  | AvoidingTurningLeft (r l : float).

(** Externally visible effects, in the order the program performs them. *)
Inductive Output : Type :=
  | printf (l : Line)
  | wb_motor_set_position_inf (w : Wheel)
  | wb_motor_set_velocity (w : Wheel) (v : float)
  | wb_distance_sensor_enable (i : nat)
  | wb_distance_sensor_recognition_enable (i : nat)
  | wb_accelerometer_enable
  | wb_emitter_set_channel (ch : Z)
  | wb_emitter_send (data : string) (size : Z)
  | wb_led_set (l : Led) (v : Z).

(** What the simulator answers during one tick. *)
Record Step : Type := {
  wb_distance_sensor_get_value : nat -> float;
  wb_distance_sensor_recognition_get_objects : nat -> list WbNodeRef;
  wb_accelerometer_get_values : float * float * float
}.

(** The state that survives from one tick to the next. *)
Record Controller : Type := {
  current_state : RobotState;
  aid_deploy_counter : Z
}.

(** ** [is_survivor] *)

Definition code (c : ascii) : Z := Z.of_N (N_of_ascii c).

(** [strcmp] on the bytes of two C strings: the end of the [string] stands
    for the terminator, and a NUL byte inside ends the comparison as well. *)
Fixpoint strcmp (a b : string) : Z :=
  match a, b with
  | EmptyString, EmptyString => 0
  | EmptyString, String d _ => 0 - code d
  | String c _, EmptyString => code c
  | String c a', String d b' =>
      if Ascii.eqb c d
      then (if Ascii.eqb c Ascii.zero then 0 else strcmp a' b')
      else code c - code d
  end.

Definition is_survivor (n : WbNodeRef) : bool :=
  match n with
  | None => false
  | Some nd =>
      match wb_supervisor_node_get_name nd with
      | Some node_name =>
          if strcmp node_name SURVIVOR_OBJECT_NAME =? 0 then true else false
      | None => false
      end
  end.

(** The C string stored in [s]: its bytes up to the first NUL. *)
Fixpoint c_str (s : string) : string :=
  match s with
  | EmptyString => EmptyString
  | String c s' => if Ascii.eqb c Ascii.zero then EmptyString else String c (c_str s')
  end.

(** Names without a NUL byte: those are their own C string. *)
Fixpoint nul_free (s : string) : bool :=
  match s with
  | EmptyString => true
  | String c s' => negb (Ascii.eqb c Ascii.zero) && nul_free s'
  end.

(** ** Step 1: reading the sensors *)

(** [a[i] = v] on the three-entry array [ds_values]. *)
Fixpoint array_set (a : list float) (i : nat) (v : float) : list float :=
  match a, i with
  | [], _ => []
  | _ :: t, O => v :: t
  | h :: t, S i' => h :: array_set t i' v
  end.

Definition array_get (a : list float) (i : nat) : float := nth i a NO_READING.

(** The inner loop over the recognised objects of one sensor whose reading
    is [v]: [true] when it left through [break]. *)
Fixpoint scan_objects (v : float) (objects : list WbNodeRef) : bool :=
  match objects with
  | [] => false
  | recognized_node :: rest =>
      if is_survivor recognized_node
      then (if (v <? SURVIVOR_DETECTION_RANGE)%float then true
            else scan_objects v rest)
      else scan_objects v rest
  end.

Record Scan : Type := {
  ds_values : list float;
  survivor_detected_this_step : bool;
  scan_log : list Output
}.

Definition scan_init : Scan :=
  {| ds_values := [NO_READING; NO_READING; NO_READING];
     survivor_detected_this_step := false;
     scan_log := [] |}.

(** One pass of the outer loop body for sensor [i]. *)
Definition scan_sensor (d : Devices) (inp : Step) (i : nat) (s : Scan) : Scan :=
  if nth i (distance_sensors d) false then
    let v := wb_distance_sensor_get_value inp i in
    let ds := array_set (ds_values s) i v in
    if scan_objects v (wb_distance_sensor_recognition_get_objects inp i)
    then {| ds_values := ds;
            survivor_detected_this_step := true;
            scan_log := scan_log s ++ [printf (SurvivorDetectedBySensor i)] |}
    else {| ds_values := ds;
            survivor_detected_this_step := survivor_detected_this_step s;
            scan_log := scan_log s |}
  else s.

(** The outer loop over the sensor indices still to visit; it stops as soon
    as the flag is set. *)
Fixpoint scan_sensors (d : Devices) (inp : Step) (indices : list nat) (s : Scan)
  : Scan :=
  match indices with
  | [] => s
  | i :: rest =>
      let s' := scan_sensor d inp i s in
      if survivor_detected_this_step s' then s'
      else scan_sensors d inp rest s'
  end.

Definition read_sensors (d : Devices) (inp : Step) : Scan :=
  scan_sensors d inp [0%nat; 1%nat; 2%nat] scan_init.

Definition read_tilt (d : Devices) (inp : Step) : bool :=
  if accelerometer d then
    let '(a0, a1, _) := wb_accelerometer_get_values inp in
    if (TILT_THRESHOLD <? PrimFloat.abs a0)%float || (TILT_THRESHOLD <? PrimFloat.abs a1)%float
    then true else false
  else false.

(** ** Step 2: determining the state *)

(** The "Timer logic" block: the counter after it, the candidate next state
    and [actively_deploying_aid]. *)
Definition timer_logic (c : Controller)
  : Z * RobotState * bool * list Output :=
  if 0 <? aid_deploy_counter c then
    let k := aid_deploy_counter c - 1 in
    if k =? 0
    then (k, current_state c, false, [printf AidDeploymentFinished])
    else (k, DEPLOYING_AID, true, [])
  else (aid_deploy_counter c, current_state c, false, []).

(** The send attempted on the detection edge. *)
Definition send_signal (d : Devices) : list Output :=
  if emitter d
  then [wb_emitter_send SURVIVOR_MESSAGE (Z.of_nat (String.length SURVIVOR_MESSAGE) + 1);
        printf EmitterSent]
  else [printf EmitterCannotSend].

Definition change_line (cur target : RobotState) (l : Line) : list Output :=
  if RobotState_eqb cur target then [] else [printf l].

(** The whole of step 2.  [front] is [ds_values[0]]. *)
Definition determine_state (d : Devices) (c : Controller)
    (tilted survivor : bool) (front : float) : Controller * list Output :=
  let '(counter, next_state, actively_deploying_aid, log) := timer_logic c in
  if negb actively_deploying_aid then
    if tilted then
      ({| current_state := ROBOT_TILTED; aid_deploy_counter := counter |},
       log ++ change_line (current_state c) ROBOT_TILTED ChangeRobotTilted)
    else if survivor then
      if negb (RobotState_eqb (current_state c) DEPLOYING_AID) then
        ({| current_state := DEPLOYING_AID;
            aid_deploy_counter := AID_DEPLOY_DURATION |},
         log ++ printf ChangeSurvivorDetected :: send_signal d)
      else
        ({| current_state := next_state; aid_deploy_counter := counter |}, log)
    else if (front <? OBSTACLE_DISTANCE_THRESHOLD)%float then
      ({| current_state := AVOIDING_OBSTACLE; aid_deploy_counter := counter |},
       log ++ change_line (current_state c) AVOIDING_OBSTACLE
                ChangeObstacleDetected)
    else
      ({| current_state := SEARCHING; aid_deploy_counter := counter |},
       log ++ change_line (current_state c) SEARCHING ChangeClear)
  else
    ({| current_state := next_state; aid_deploy_counter := counter |}, log).

(** ** Step 3: acting on the state *)

Definition has_led (d : Devices) (l : Led) : bool :=
  match l with LeftLed => left_led d | RightLed => right_led d end.

(** [if (led) wb_led_set(led, v);] *)
Definition led_set (d : Devices) (l : Led) (v : Z) : list Output :=
  if has_led d l then [wb_led_set l v] else [].

Definition leds_on (d : Devices) : list Output :=
  led_set d LeftLed 1 ++ led_set d RightLed 1.

(** [left_speed], [right_speed] and the effects of the reset and the
    [switch]; [c] is the controller after step 2. *)
Definition execute_actions (d : Devices) (c : Controller) (ds : list float)
  : float * float * list Output :=
  let reset := led_set d LeftLed 0 ++ led_set d RightLed 0 in
  match current_state c with
  | ROBOT_TILTED => (0%float, 0%float, reset ++ leds_on d)
  | DEPLOYING_AID =>
      (0%float, 0%float,
       reset ++ (if Z.rem (aid_deploy_counter c) 4 <? 2 then leds_on d else []))
  | AVOIDING_OBSTACLE =>
      if (array_get ds 1 <? array_get ds 2)%float
      then (TURN_SPEED, (- TURN_SPEED)%float,
            reset ++ [printf (AvoidingTurningRight (array_get ds 1) (array_get ds 2))])
      else ((- TURN_SPEED)%float, TURN_SPEED,
            reset ++ [printf (AvoidingTurningLeft (array_get ds 2) (array_get ds 1))])
  | SEARCHING => (FORWARD_SPEED, FORWARD_SPEED, reset)
  end.

(** ** One tick and the loop *)

Record Tick : Type := {
  controller : Controller;
  left_speed : float;
  right_speed : float;
  trace : list Output
}.

Definition tick (d : Devices) (c : Controller) (inp : Step) : Tick :=
  let s := read_sensors d inp in
  let tilted := read_tilt d inp in
  let '(c', log2) :=
    determine_state d c tilted (survivor_detected_this_step s)
      (array_get (ds_values s) 0) in
  let '(l, r, log3) := execute_actions d c' (ds_values s) in
  {| controller := c';
     left_speed := l;
     right_speed := r;
     trace := scan_log s ++ log2 ++ log3
              ++ [wb_motor_set_velocity LeftWheel l;
                  wb_motor_set_velocity RightWheel r] |}.

(** The [while] loop over the ticks the simulator grants before
    [wb_robot_step] returns -1: the record of every tick, in order. *)
Fixpoint control_loop (d : Devices) (c : Controller) (steps : list Step)
  : list Tick :=
  match steps with
  | [] => []
  | inp :: rest =>
      let t := tick d c inp in
      t :: control_loop d (controller t) rest
  end.

(** ** Start-up and [main] *)

Definition initial_controller : Controller :=
  {| current_state := SEARCHING; aid_deploy_counter := 0 |}.

Definition enable_distance_sensor (d : Devices) (i : nat) : list Output :=
  if nth i (distance_sensors d) false
  then [wb_distance_sensor_enable i; wb_distance_sensor_recognition_enable i]
  else [printf (WarnDistanceSensorNotFound i)].

(** The code of [main] before the loop: [None] when it returns 1 because a
    wheel motor is missing, otherwise the effects of the set-up. *)
Definition startup (d : Devices) : option (list Output) :=
  if negb (left_motor d) || negb (right_motor d) then None
  else Some
    ([wb_motor_set_position_inf LeftWheel;
      wb_motor_set_position_inf RightWheel;
      wb_motor_set_velocity LeftWheel 0%float;
      wb_motor_set_velocity RightWheel 0%float]
     ++ enable_distance_sensor d 0 ++ enable_distance_sensor d 1
     ++ enable_distance_sensor d 2
     ++ (if accelerometer d then [wb_accelerometer_enable]
         else [printf WarnAccelerometerNotFound])
     ++ (if negb (emitter d) then [printf ErrorEmitterNotFound]
         else [wb_emitter_set_channel EMITTER_CHANNEL])
     ++ [printf ControllerInitialized]).

(** [main]: exit status, everything it did, and the ticks it ran. *)
Definition main (d : Devices) (steps : list Step)
  : Z * list Output * list Tick :=
  match startup d with
  | None => (1, [], [])
  | Some log =>
      let ticks := control_loop d initial_controller steps in
      (0, log ++ List.concat (map trace ticks), ticks)
  end.

(** ** Reading traces *)

Definition is_send (o : Output) : bool :=
  match o with wb_emitter_send _ _ => true | _ => false end.

Definition sends (t : list Output) : nat := List.length (filter is_send t).

Definition is_warning (o : Output) : bool :=
  match o with
  | printf (WarnDistanceSensorNotFound _)
  | printf WarnAccelerometerNotFound
  | printf ErrorEmitterNotFound => true
  | _ => false
  end.

(** The value a LED is left with: the last [wb_led_set] on it. *)
Fixpoint led_value (l : Led) (t : list Output) (v : option Z) : option Z :=
  match t with
  | [] => v
  | wb_led_set l' x :: rest =>
      led_value l rest
        (match l, l' with
         | LeftLed, LeftLed | RightLed, RightLed => Some x
         | _, _ => v
         end)
  | _ :: rest => led_value l rest v
  end.

Definition is_led_set (o : Output) : bool :=
  match o with wb_led_set _ _ => true | _ => false end.

(** Some optional device is missing. *)
Definition optional_missing (d : Devices) : bool :=
  negb (ds_front d && ds_left d && ds_right d && accelerometer d
        && emitter d && left_led d && right_led d).

(** States reachable by the loop from the initial controller. *)
Inductive reachable (d : Devices) : Controller -> Prop :=
  | reachable_init : reachable d initial_controller
  | reachable_tick c inp :
      reachable d c -> reachable d (controller (tick d c inp)).

(** The observation of one tick, as step 2 consumes it. *)
Definition frame_tilted (d : Devices) (inp : Step) : bool := read_tilt d inp.

Definition frame_survivor (d : Devices) (inp : Step) : bool :=
  survivor_detected_this_step (read_sensors d inp).

Definition frame_front (d : Devices) (inp : Step) : float :=
  array_get (ds_values (read_sensors d inp)) 0.

(** Whether sensor [i] exists and its scan ends in a detection. *)
Definition sensor_matches (d : Devices) (inp : Step) (i : nat) : bool :=
  nth i (distance_sensors d) false
  && scan_objects (wb_distance_sensor_get_value inp i)
       (wb_distance_sensor_recognition_get_objects inp i).

(** What a sensor leaves in [ds_values] when the scan gets to it. *)
Definition reading (d : Devices) (inp : Step) (i : nat) : float :=
  if nth i (distance_sensors d) false
  then wb_distance_sensor_get_value inp i
  else NO_READING.

(** The controller after running the loop over [steps]. *)
Definition final_controller (d : Devices) (c : Controller) (steps : list Step)
  : Controller :=
  fold_left (fun c inp => controller (tick d c inp)) steps c.

(** The transition as the specification words it, a cascade in which an
    earlier clause suppresses the later ones: timer override, tilt, survivor
    detection (which acts only when the state is not already
    [DEPLOYING_AID]), obstacle, default.  The result is the next state, the
    timer, and whether the message is emitted. *)
Definition transition_spec (state : RobotState) (timer : Z)
    (tilted survivor : bool) (front : float) : RobotState * Z * bool :=
  let timer' := if 0 <? timer then timer - 1 else timer in
  if (0 <? timer) && (0 <? timer') then (DEPLOYING_AID, timer', false)
  else if tilted then (ROBOT_TILTED, timer', false)
  else if survivor then
    match state with
    | DEPLOYING_AID => (DEPLOYING_AID, timer', false)
    | _ => (DEPLOYING_AID, AID_DEPLOY_DURATION, true)
    end
  else if (front <? OBSTACLE_DISTANCE_THRESHOLD)%float
       then (AVOIDING_OBSTACLE, timer', false)
  else (SEARCHING, timer', false).

Definition all_states : list RobotState :=
  [SEARCHING; AVOIDING_OBSTACLE; DEPLOYING_AID; ROBOT_TILTED].

(** Everything the loop did over [steps], in order. *)
Definition run_trace (d : Devices) (c : Controller) (steps : list Step)
  : list Output :=
  List.concat (map trace (control_loop d c steps)).

(** ** Further readings of traces and states *)

Definition count_if (p : Output -> bool) (t : list Output) : nat :=
  List.length (filter p t).

(** The four "STATE CHANGE" lines. *)
Definition is_state_change (o : Output) : bool :=
  match o with
  | printf ChangeRobotTilted
  | printf ChangeSurvivorDetected
  | printf ChangeObstacleDetected
  | printf ChangeClear => true
  | _ => false
  end.

Definition is_finished (o : Output) : bool :=
  match o with printf AidDeploymentFinished => true | _ => false end.

(** Whether step 3 leaves the LEDs on for controller [c]. *)
Definition led_lit (c : Controller) : bool :=
  match current_state c with
  | ROBOT_TILTED => true
  | DEPLOYING_AID => Z.rem (aid_deploy_counter c) 4 <? 2
  | _ => false
  end.

(** The tick on which a detection starts a deployment: the timer does not
    force the state, there is no tilt, a survivor is seen and the state is
    not yet [DEPLOYING_AID]. *)
Definition detection_edge (d : Devices) (c : Controller) (inp : Step) : bool :=
  (aid_deploy_counter c <=? 1)
  && negb (frame_tilted d inp)
  && frame_survivor d inp
  && negb (RobotState_eqb (current_state c) DEPLOYING_AID).

(** A tick without tilt and without survivor. *)
Definition quiet (d : Devices) (inp : Step) : Prop :=
  frame_tilted d inp = false /\ frame_survivor d inp = false.

(** ** Step 5: the periodic status line *)

(** The value [printf] shows for a [RobotState] under [%d]. *)
Definition RobotState_value (s : RobotState) : Z :=
  match s with
  | SEARCHING => 0
  | AVOIDING_OBSTACLE => 1
  | DEPLOYING_AID => 2
  | ROBOT_TILTED => 3
  end.

Definition bool_value (b : bool) : Z := if b then 1 else 0.

(** The arguments of the status [printf], in order. *)
Record StatusLine : Type := {
  status_S : Z;
  status_Aid : Z;
  status_F : float;
  status_L : float;
  status_R : float;
  status_Tilt : Z;
  status_Surv : Z;
  status_Spd_L : float;
  status_Spd_R : float
}.

(** The line for the tick [t] that was run on [inp]. *)
Definition status_line (d : Devices) (inp : Step) (t : Tick) : StatusLine :=
  let ds := ds_values (read_sensors d inp) in
  {| status_S := RobotState_value (current_state (controller t));
     status_Aid := aid_deploy_counter (controller t);
     status_F := array_get ds 0;
     status_L := array_get ds 1;
     status_R := array_get ds 2;
     status_Tilt := bool_value (read_tilt d inp);
     status_Surv := bool_value (survivor_detected_this_step (read_sensors d inp));
     status_Spd_L := left_speed t;
     status_Spd_R := right_speed t |}.

(** [if (debug_print_counter++ % 8 == 0) printf(...)]: the line, if any, and
    the counter afterwards.  The counter is a C [int]; the embedding is
    that of the program while it stays below [INT_MAX]. *)
Definition debug_output (d : Devices) (debug_print_counter : Z) (inp : Step)
    (t : Tick) : option StatusLine * Z :=
  (if Z.rem debug_print_counter 8 =? 0 then Some (status_line d inp t)
   else None,
   debug_print_counter + 1).

(** The status lines of the loop, tick by tick. *)
Fixpoint debug_loop (d : Devices) (c : Controller) (debug_print_counter : Z)
    (steps : list Step) : list (option StatusLine) :=
  match steps with
  | [] => []
  | inp :: rest =>
      let t := tick d c inp in
      let '(line, n) := debug_output d debug_print_counter inp t in
      line :: debug_loop d (controller t) n rest
  end.

Definition INT_MAX : Z := 2147483647.

(** What the status [printf] shows on tick number [i] (from 0), which ran on
    [inp] and is recorded in [t]. *)
Definition status_at (d : Devices) (entry : nat * (Step * Tick))
  : option StatusLine :=
  let '(i, (inp, t)) := entry in
  if Z.of_nat i mod 8 =? 0 then Some (status_line d inp t) else None.

(** ** Sample configurations and ticks *)

Definition all_devices : Devices :=
  {| left_motor := true; right_motor := true;
     ds_front := true; ds_left := true; ds_right := true;
     accelerometer := true; emitter := true;
     left_led := true; right_led := true |}.

Definition no_emitter : Devices :=
  {| left_motor := true; right_motor := true;
     ds_front := true; ds_left := true; ds_right := true;
     accelerometer := true; emitter := false;
     left_led := true; right_led := true |}.

Definition no_left_led : Devices :=
  {| left_motor := true; right_motor := true;
     ds_front := true; ds_left := true; ds_right := true;
     accelerometer := true; emitter := true;
     left_led := false; right_led := true |}.

(** Nothing but the two wheel motors. *)
Definition wheels_only : Devices :=
  {| left_motor := true; right_motor := true;
     ds_front := false; ds_left := false; ds_right := false;
     accelerometer := false; emitter := false;
     left_led := false; right_led := false |}.

Definition no_left_motor : Devices :=
  {| left_motor := false; right_motor := true;
     ds_front := true; ds_left := true; ds_right := true;
     accelerometer := true; emitter := true;
     left_led := true; right_led := true |}.

Definition survivor_node : WbNodeRef :=
  Some {| wb_supervisor_node_get_name := Some SURVIVOR_OBJECT_NAME |}.

Definition level : float * float * float := (0%float, 0%float, 9.81%float).

(** Open space all around, nothing recognised, level ground. *)
Definition clear_step : Step :=
  {| wb_distance_sensor_get_value := fun _ => 0.5%float;
     wb_distance_sensor_recognition_get_objects := fun _ => [];
     wb_accelerometer_get_values := level |}.

(** A wall 0.1 ahead. *)
Definition obstacle_step (l r : float) : Step :=
  {| wb_distance_sensor_get_value :=
       fun i => match i with O => 0.1%float | S O => l | _ => r end;
     wb_distance_sensor_recognition_get_objects := fun _ => [];
     wb_accelerometer_get_values := level |}.

(** A survivor recognised by the left sensor at 0.2. *)
Definition survivor_step : Step :=
  {| wb_distance_sensor_get_value :=
       fun i => match i with S O => 0.2%float | _ => 0.5%float end;
     wb_distance_sensor_recognition_get_objects :=
       fun i => match i with S O => [survivor_node] | _ => [] end;
     wb_accelerometer_get_values := level |}.

(** The same survivor while the robot lies on its side. *)
Definition tilted_survivor_step : Step :=
  {| wb_distance_sensor_get_value :=
       fun i => match i with S O => 0.2%float | _ => 0.5%float end;
     wb_distance_sensor_recognition_get_objects :=
       fun i => match i with S O => [survivor_node] | _ => [] end;
     wb_accelerometer_get_values := (4.0%float, 0%float, 0%float) |}.

(** The left sensor recognises three objects, the survivor among them. *)
Definition crowded_step : Step :=
  {| wb_distance_sensor_get_value :=
       fun i => match i with S O => 0.2%float | _ => 0.5%float end;
     wb_distance_sensor_recognition_get_objects :=
       fun i => match i with
                | S O => [Some {| wb_supervisor_node_get_name := Some "Rock"%string |};
                          survivor_node; None]
                | _ => []
                end;
     wb_accelerometer_get_values := level |}.

(** The same recognitions, reported in another order. *)
Definition crowded_step_reordered : Step :=
  {| wb_distance_sensor_get_value :=
       fun i => match i with S O => 0.2%float | _ => 0.5%float end;
     wb_distance_sensor_recognition_get_objects :=
       fun i => match i with
                | S O => [None; survivor_node;
                          Some {| wb_supervisor_node_get_name := Some "Rock"%string |}]
                | _ => []
                end;
     wb_accelerometer_get_values := level |}.

(** * Properties *)

(** Finds a given element in a list written out in full. *)
Ltac find_in := simpl; repeat (first [left; reflexivity | right]).

(** ** Basic facts *)

Lemma RobotState_eqb_eq (a b : RobotState) :
  RobotState_eqb a b = true <-> a = b.
Proof. destruct a, b; simpl; split; congruence. Qed.

Lemma code_zero (c : ascii) : code c = 0 <-> c = Ascii.zero.
Proof.
  unfold code. split.
  - intros H. rewrite <- (ascii_N_embedding c).
    replace (N_of_ascii c) with 0%N by lia. reflexivity.
  - intros ->. reflexivity.
Qed.

Lemma code_inj (c e : ascii) : code c = code e -> c = e.
Proof.
  unfold code. intros H.
  rewrite <- (ascii_N_embedding c), <- (ascii_N_embedding e).
  f_equal. lia.
Qed.

(** [strcmp] answers 0 exactly on equal C strings. *)
Lemma strcmp_zero (a : string) :
  forall b, strcmp a b = 0 <-> c_str a = c_str b.
Proof.
  induction a as [|c a IH]; intros [|e b]; simpl.
  - tauto.
  - destruct (Ascii.eqb_spec e Ascii.zero) as [->|Hne].
    + split; reflexivity.
    + split; [|discriminate].
      intros H. exfalso. apply Hne, code_zero. lia.
  - destruct (Ascii.eqb_spec c Ascii.zero) as [->|Hne].
    + split; reflexivity.
    + split; [|discriminate].
      intros H. exfalso. apply Hne, code_zero. lia.
  - destruct (Ascii.eqb_spec c e) as [<-|Hce].
    + destruct (Ascii.eqb_spec c Ascii.zero) as [->|Hne].
      * split; reflexivity.
      * rewrite IH. split; [intros ->; reflexivity|]. congruence.
    + split.
      * intros H. exfalso. apply Hce, code_inj. lia.
      * destruct (Ascii.eqb_spec c Ascii.zero) as [->|Hc];
          destruct (Ascii.eqb_spec e Ascii.zero) as [->|He];
          try discriminate; congruence.
Qed.

Lemma c_str_nul_free (s : string) : nul_free s = true -> c_str s = s.
Proof.
  induction s as [|c s IH]; simpl; [reflexivity|].
  destruct (Ascii.eqb c Ascii.zero); simpl; [discriminate|].
  intros H. rewrite IH by assumption. reflexivity.
Qed.

(** ** C7: the survivor classifier *)

Lemma is_survivor_iff (r : WbNodeRef) :
  is_survivor r = true <->
  exists nd s, r = Some nd
            /\ wb_supervisor_node_get_name nd = Some s
            /\ c_str s = SURVIVOR_OBJECT_NAME.
Proof.
  unfold is_survivor. destruct r as [[[s|]]|]; simpl.
  - destruct (Z.eqb_spec (strcmp s SURVIVOR_OBJECT_NAME) 0) as [H|H].
    + split; [|reflexivity]. intros _.
      exists {| wb_supervisor_node_get_name := Some s |}, s.
      repeat split. apply strcmp_zero in H. exact H.
    + split; [discriminate|].
      intros (nd & s' & Hr & Hn & Hs). exfalso. apply H.
      inversion Hr; subst nd. simpl in Hn. inversion Hn; subst s'.
      apply strcmp_zero. exact Hs.
  - split; [discriminate|].
    intros (nd & s' & Hr & Hn & _). inversion Hr; subst nd. discriminate.
  - split; [discriminate|]. intros (nd & s' & Hr & _). discriminate.
Qed.

(** C7.  [is_survivor] answers true exactly when the reference is not null,
    its name resolves, and the name, read as a C string, is equal to
    "SurvivorObstacle" character for character; a null reference and a node
    whose name does not resolve are answered false. *)
Theorem is_survivor_exact_name (r : WbNodeRef) :
  (is_survivor r = true <->
   exists nd s, r = Some nd
             /\ wb_supervisor_node_get_name nd = Some s
             /\ c_str s = "SurvivorObstacle"%string)
  /\ is_survivor None = false
  /\ is_survivor (Some {| wb_supervisor_node_get_name := None |}) = false.
Proof.
  split; [apply is_survivor_iff | split; reflexivity].
Qed.

(** Near misses are rejected: another case, a prefix, an extension, the
    empty name. *)
Example is_survivor_near_misses :
  map (fun s => is_survivor (Some {| wb_supervisor_node_get_name := Some s |}))
    ["SurvivorObstacle"; "survivorobstacle"; "Survivor"; "SurvivorObstacle2";
     ""; " SurvivorObstacle"]%string
  = [true; false; false; false; false; false].
Proof. reflexivity. Qed.

(** On a name without NUL bytes the test is plain string equality. *)
Lemma is_survivor_nul_free (s : string) :
  nul_free s = true ->
  (is_survivor (Some {| wb_supervisor_node_get_name := Some s |}) = true
   <-> s = SURVIVOR_OBJECT_NAME).
Proof.
  intros Hs.
  rewrite is_survivor_iff. split.
  - intros (nd & s' & Hr & Hn & Hc). inversion Hr; subst nd.
    simpl in Hn. inversion Hn; subst s'.
    rewrite c_str_nul_free in Hc by assumption. exact Hc.
  - intros ->. eexists _, _. repeat split.
Qed.

(** ** C6: the sensor scan *)

Lemma scan_objects_true (v : float) (objects : list WbNodeRef) :
  scan_objects v objects = true <->
  (exists o, In o objects /\ is_survivor o = true)
  /\ (v <? SURVIVOR_DETECTION_RANGE)%float = true.
Proof.
  induction objects as [|o rest IH]; simpl.
  - split; [discriminate|]. intros [(o & [] & _) _].
  - destruct (is_survivor o) eqn:Ho.
    + destruct (v <? SURVIVOR_DETECTION_RANGE)%float eqn:Hv.
      * split; [|reflexivity]. intros _. split; [|reflexivity].
        exists o. split; [left; reflexivity | exact Ho].
      * rewrite IH. split; intros [_ H]; discriminate.
    + rewrite IH. split; intros [(o' & Hin & Ho') Hv]; (split; [|exact Hv]).
      * exists o'. split; [right; exact Hin | exact Ho'].
      * destruct Hin as [<-|Hin]; [congruence|].
        exists o'. split; assumption.
Qed.

Lemma sensor_matches_iff (d : Devices) (inp : Step) (i : nat) :
  sensor_matches d inp i = true <->
  nth i (distance_sensors d) false = true
  /\ (exists o, In o (wb_distance_sensor_recognition_get_objects inp i)
             /\ is_survivor o = true)
  /\ (wb_distance_sensor_get_value inp i <? SURVIVOR_DETECTION_RANGE)%float
     = true.
Proof.
  unfold sensor_matches. rewrite andb_true_iff, scan_objects_true. tauto.
Qed.

(** The scan, unrolled over its three sensors. *)
Lemma read_sensors_unrolled (d : Devices) (inp : Step) :
  read_sensors d inp =
  if sensor_matches d inp 0 then
    {| ds_values := [wb_distance_sensor_get_value inp 0%nat; NO_READING; NO_READING];
       survivor_detected_this_step := true;
       scan_log := [printf (SurvivorDetectedBySensor 0)] |}
  else if sensor_matches d inp 1 then
    {| ds_values := [reading d inp 0; wb_distance_sensor_get_value inp 1%nat;
                     NO_READING];
       survivor_detected_this_step := true;
       scan_log := [printf (SurvivorDetectedBySensor 1)] |}
  else if sensor_matches d inp 2 then
    {| ds_values := [reading d inp 0; reading d inp 1;
                     wb_distance_sensor_get_value inp 2%nat];
       survivor_detected_this_step := true;
       scan_log := [printf (SurvivorDetectedBySensor 2)] |}
  else
    {| ds_values := [reading d inp 0; reading d inp 1; reading d inp 2];
       survivor_detected_this_step := false;
       scan_log := [] |}.
Proof.
  unfold read_sensors, sensor_matches, reading, scan_sensors, scan_sensor,
    scan_init, distance_sensors.
  destruct d as [lm rm f l r ac em ll rl]; simpl.
  destruct f; simpl;
    [destruct (scan_objects _ (wb_distance_sensor_recognition_get_objects inp 0%nat));
     simpl; [reflexivity|] |];
    (destruct l; simpl;
     [destruct (scan_objects _ (wb_distance_sensor_recognition_get_objects inp 1%nat));
      simpl; [reflexivity|] |]);
    (destruct r; simpl;
     [destruct (scan_objects _ (wb_distance_sensor_recognition_get_objects inp 2%nat));
      simpl; reflexivity | reflexivity]).
Qed.

Lemma detected_iff_some_sensor (d : Devices) (inp : Step) :
  survivor_detected_this_step (read_sensors d inp) = true <->
  exists i, (i < 3)%nat /\ sensor_matches d inp i = true.
Proof.
  rewrite read_sensors_unrolled.
  destruct (sensor_matches d inp 0) eqn:H0;
    [|destruct (sensor_matches d inp 1) eqn:H1;
      [|destruct (sensor_matches d inp 2) eqn:H2]]; simpl.
  - split; [|reflexivity]. intros _. exists 0%nat. split; [lia|exact H0].
  - split; [|reflexivity]. intros _. exists 1%nat. split; [lia|exact H1].
  - split; [|reflexivity]. intros _. exists 2%nat. split; [lia|exact H2].
  - split; [discriminate|]. intros (i & Hi & Hm).
    destruct i as [|[|[|i]]]; try congruence. lia.
Qed.

(** C6.  The flag is set exactly when some available sensor recognises an
    object classified as a survivor while that sensor reads strictly less
    than 0.4.  The scan ends at the first such sensor: it alone is
    reported and the later sensors are not read, their entries keeping
    the sentinel.  An unavailable sensor contributes 999.0, which is not
    below the range. *)
Theorem survivor_scan_first_match (d : Devices) (inp : Step) :
  let s := read_sensors d inp in
  (survivor_detected_this_step s = true <->
   exists i, (i < 3)%nat
     /\ nth i (distance_sensors d) false = true
     /\ (exists o, In o (wb_distance_sensor_recognition_get_objects inp i)
                /\ is_survivor o = true)
     /\ (wb_distance_sensor_get_value inp i <? 0.4)%float = true)
  /\ (forall i, (i < 3)%nat ->
        sensor_matches d inp i = true ->
        (forall j, (j < i)%nat -> sensor_matches d inp j = false) ->
        scan_log s = [printf (SurvivorDetectedBySensor i)]
        /\ array_get (ds_values s) i = wb_distance_sensor_get_value inp i
        /\ forall j, (i < j)%nat -> array_get (ds_values s) j = 999.0%float)
  /\ (forall i, nth i (distance_sensors d) false = false ->
        array_get (ds_values s) i = 999.0%float)
  /\ (999.0 <? SURVIVOR_DETECTION_RANGE)%float = false.
Proof.
  cbv zeta. split; [|split; [|split; [|reflexivity]]].
  - rewrite detected_iff_some_sensor.
    split; intros (i & Hi & H); exists i; (split; [exact Hi|]).
    + apply sensor_matches_iff in H. exact H.
    + apply sensor_matches_iff. exact H.
  - intros i Hi Hm Hfirst. rewrite read_sensors_unrolled.
    destruct i as [|[|[|i]]]; [| | |lia].
    + rewrite Hm. simpl. repeat split.
      intros [|[|[|[|j]]]] Hj; try lia; reflexivity.
    + rewrite (Hfirst 0%nat) by lia. rewrite Hm. simpl. repeat split.
      intros [|[|[|[|j]]]] Hj; try lia; reflexivity.
    + rewrite (Hfirst 0%nat), (Hfirst 1%nat) by lia. rewrite Hm. simpl.
      repeat split.
      intros [|[|[|[|j]]]] Hj; try lia; reflexivity.
  - intros i Hav. rewrite read_sensors_unrolled.
    assert (Hm : sensor_matches d inp i = false).
    { unfold sensor_matches. rewrite Hav. reflexivity. }
    assert (Hr : reading d inp i = NO_READING).
    { unfold reading. rewrite Hav. reflexivity. }
    destruct i as [|[|[|i]]].
    + rewrite Hm.
      destruct (sensor_matches d inp 1); [exact Hr|].
      destruct (sensor_matches d inp 2); exact Hr.
    + destruct (sensor_matches d inp 0); [reflexivity|]. rewrite Hm.
      destruct (sensor_matches d inp 2); exact Hr.
    + destruct (sensor_matches d inp 0); [reflexivity|].
      destruct (sensor_matches d inp 1); [reflexivity|].
      destruct (sensor_matches d inp 2); [discriminate Hm | exact Hr].
    + destruct (sensor_matches d inp 0); [|destruct (sensor_matches d inp 1);
        [|destruct (sensor_matches d inp 2)]];
        unfold array_get; simpl; destruct i; reflexivity.
Qed.

Lemma survivor_scan_first_match_witness :
  (scan_log (read_sensors all_devices survivor_step)
     = [printf (SurvivorDetectedBySensor 1)]
   /\ array_get (ds_values (read_sensors all_devices survivor_step)) 1
      = 0.2%float
   /\ forall j, (1 < j)%nat ->
        array_get (ds_values (read_sensors all_devices survivor_step)) j
        = 999.0%float)
  /\ array_get (ds_values (read_sensors wheels_only survivor_step)) 1
     = 999.0%float.
Proof.
  split.
  - destruct (survivor_scan_first_match all_devices survivor_step)
      as (_ & H & _).
    apply (H 1%nat).
    + lia.
    + reflexivity.
    + intros j Hj. destruct j; [reflexivity | lia].
  - destruct (survivor_scan_first_match wheels_only survivor_step)
      as (_ & _ & H & _).
    apply (H 1%nat). reflexivity.
Defined.

(** ** The tick, taken apart *)

Lemma tick_controller (d : Devices) (c : Controller) (inp : Step) :
  controller (tick d c inp)
  = fst (determine_state d c (frame_tilted d inp) (frame_survivor d inp)
           (frame_front d inp)).
Proof.
  unfold tick, frame_tilted, frame_survivor, frame_front.
  destruct (determine_state _ _ _ _ _) as [c' log2].
  destruct (execute_actions _ _ _) as [[l r] log3]. reflexivity.
Qed.

Lemma tick_trace (d : Devices) (c : Controller) (inp : Step) :
  trace (tick d c inp)
  = scan_log (read_sensors d inp)
    ++ snd (determine_state d c (frame_tilted d inp) (frame_survivor d inp)
              (frame_front d inp))
    ++ snd (execute_actions d (controller (tick d c inp))
              (ds_values (read_sensors d inp)))
    ++ [wb_motor_set_velocity LeftWheel (left_speed (tick d c inp));
        wb_motor_set_velocity RightWheel (right_speed (tick d c inp))].
Proof.
  unfold tick, frame_tilted, frame_survivor, frame_front.
  destruct (determine_state _ _ _ _ _) as [c' log2].
  destruct (execute_actions d c' (ds_values (read_sensors d inp)))
    as [[l r] log3] eqn:E.
  simpl. rewrite E. reflexivity.
Qed.

Lemma tick_speeds (d : Devices) (c : Controller) (inp : Step) :
  (left_speed (tick d c inp), right_speed (tick d c inp))
  = fst (execute_actions d (controller (tick d c inp))
           (ds_values (read_sensors d inp))).
Proof.
  unfold tick.
  destruct (determine_state _ _ _ _ _) as [c' log2].
  destruct (execute_actions d c' (ds_values (read_sensors d inp)))
    as [[l r] log3] eqn:E.
  simpl. rewrite E. reflexivity.
Qed.

Lemma sends_app (a b : list Output) : sends (a ++ b) = (sends a + sends b)%nat.
Proof. unfold sends. rewrite filter_app, length_app. reflexivity. Qed.

Lemma sends_scan_log (d : Devices) (inp : Step) :
  sends (scan_log (read_sensors d inp)) = 0%nat.
Proof.
  rewrite read_sensors_unrolled.
  destruct (sensor_matches d inp 0); [reflexivity|].
  destruct (sensor_matches d inp 1); [reflexivity|].
  destruct (sensor_matches d inp 2); reflexivity.
Qed.

Lemma sends_execute_actions (d : Devices) (c : Controller) (ds : list float) :
  sends (snd (execute_actions d c ds)) = 0%nat.
Proof.
  unfold execute_actions, leds_on, led_set, has_led.
  destruct (current_state c), (left_led d), (right_led d); simpl;
    try reflexivity;
    try (destruct (Z.rem (aid_deploy_counter c) 4 <? 2); reflexivity);
    destruct (array_get ds 1 <? array_get ds 2)%float; reflexivity.
Qed.

(** The only sends of a tick are those of step 2. *)
Lemma sends_tick (d : Devices) (c : Controller) (inp : Step) :
  sends (trace (tick d c inp))
  = sends (snd (determine_state d c (frame_tilted d inp)
                  (frame_survivor d inp) (frame_front d inp))).
Proof.
  rewrite tick_trace, !sends_app, sends_scan_log, sends_execute_actions.
  change (sends [wb_motor_set_velocity LeftWheel (left_speed (tick d c inp));
                 wb_motor_set_velocity RightWheel (right_speed (tick d c inp))])
    with 0%nat.
  lia.
Qed.


(** ** C1: the transition *)

(** Step 2 computes the cascade of [transition_spec]. *)
Lemma determine_state_spec (d : Devices) (c : Controller)
    (tilted survivor : bool) (front : float) :
  let r := determine_state d c tilted survivor front in
  let p := transition_spec (current_state c) (aid_deploy_counter c)
             tilted survivor front in
  current_state (fst r) = fst (fst p)
  /\ aid_deploy_counter (fst r) = snd (fst p)
  /\ sends (snd r) = if snd p && emitter d then 1%nat else 0%nat.
Proof.
  destruct c as [st k].
  unfold determine_state, timer_logic, transition_spec, send_signal. simpl.
  destruct (Z.ltb_spec 0 k) as [Hk|Hk]; simpl.
  - destruct (Z.eqb_spec (k - 1) 0) as [H0|H0];
      destruct (Z.ltb_spec 0 (k - 1)) as [H1|H1]; try lia; simpl.
    + destruct tilted, survivor, st,
        (front <? OBSTACLE_DISTANCE_THRESHOLD)%float, (emitter d);
        simpl; repeat split; reflexivity.
    + repeat split; reflexivity.
  - destruct tilted, survivor, st,
      (front <? OBSTACLE_DISTANCE_THRESHOLD)%float, (emitter d);
      simpl; repeat split; reflexivity.
Qed.

Lemma tick_spec (d : Devices) (c : Controller) (inp : Step) :
  let p := transition_spec (current_state c) (aid_deploy_counter c)
             (frame_tilted d inp) (frame_survivor d inp) (frame_front d inp) in
  current_state (controller (tick d c inp)) = fst (fst p)
  /\ aid_deploy_counter (controller (tick d c inp)) = snd (fst p)
  /\ sends (trace (tick d c inp))
     = (if snd p && emitter d then 1%nat else 0%nat).
Proof.
  cbv zeta. rewrite tick_controller, sends_tick.
  apply determine_state_spec.
Qed.

(** C1.  Each tick's next state, timer and emission are the function
    [transition_spec] of the current state, the timer and the sensor frame:
    timer override first, then tilt, then survivor detection (acting only
    when the state is not already DeployingAid), then obstacle, then the
    default; and the state reached is exactly one of the four. *)
Theorem transition_total_precedence (d : Devices) (c : Controller)
    (inp : Step) :
  let t := tick d c inp in
  let p := transition_spec (current_state c) (aid_deploy_counter c)
             (frame_tilted d inp) (frame_survivor d inp) (frame_front d inp) in
  current_state (controller t) = fst (fst p)
  /\ aid_deploy_counter (controller t) = snd (fst p)
  /\ sends (trace t) = (if snd p && emitter d then 1%nat else 0%nat)
  /\ List.length (filter (RobotState_eqb (current_state (controller t)))
                    all_states) = 1%nat.
Proof.
  cbv zeta. destruct (tick_spec d c inp) as (Hs & Hk & He).
  repeat split; try assumption.
  destruct (current_state (controller (tick d c inp))); reflexivity.
Qed.

(** The cascade on the sample ticks. *)
Example transition_samples :
  map (fun '(c, inp) => controller (tick all_devices c inp))
    [(initial_controller, clear_step);
     (initial_controller, obstacle_step 0.5 0.5);
     (initial_controller, survivor_step);
     (initial_controller, tilted_survivor_step);
     ({| current_state := DEPLOYING_AID; aid_deploy_counter := 7 |},
      tilted_survivor_step);
     ({| current_state := DEPLOYING_AID; aid_deploy_counter := 1 |},
      clear_step)]
  = [{| current_state := SEARCHING; aid_deploy_counter := 0 |};
     {| current_state := AVOIDING_OBSTACLE; aid_deploy_counter := 0 |};
     {| current_state := DEPLOYING_AID; aid_deploy_counter := 50 |};
     {| current_state := ROBOT_TILTED; aid_deploy_counter := 0 |};
     {| current_state := DEPLOYING_AID; aid_deploy_counter := 6 |};
     {| current_state := SEARCHING; aid_deploy_counter := 0 |}].
Proof. vm_compute. reflexivity. Qed.

(** ** Single-tick consequences *)

Lemma controller_eta (c : Controller) (s : RobotState) (k : Z) :
  current_state c = s -> aid_deploy_counter c = k ->
  c = {| current_state := s; aid_deploy_counter := k |}.
Proof. destruct c; simpl; intros -> ->; reflexivity. Qed.

(** While the decremented timer is still positive the tick is forced. *)
Lemma tick_forced (d : Devices) (c : Controller) (inp : Step) :
  1 < aid_deploy_counter c ->
  controller (tick d c inp)
  = {| current_state := DEPLOYING_AID;
       aid_deploy_counter := aid_deploy_counter c - 1 |}
  /\ sends (trace (tick d c inp)) = 0%nat.
Proof.
  intros Hk. destruct (tick_spec d c inp) as (Hs & Hc & He).
  unfold transition_spec in *.
  destruct (Z.ltb_spec 0 (aid_deploy_counter c)) as [H0|H0]; [|lia].
  destruct (Z.ltb_spec 0 (aid_deploy_counter c - 1)) as [H1|H1]; [|lia].
  simpl in *. split; [apply controller_eta|]; assumption.
Qed.

(** A tick that is not forced and sees a tilt. *)
Lemma tick_tilted (d : Devices) (c : Controller) (inp : Step) :
  aid_deploy_counter c <= 1 ->
  frame_tilted d inp = true ->
  current_state (controller (tick d c inp)) = ROBOT_TILTED
  /\ aid_deploy_counter (controller (tick d c inp)) <= 0
  /\ sends (trace (tick d c inp)) = 0%nat.
Proof.
  intros Hk Ht. destruct (tick_spec d c inp) as (Hs & Hc & He).
  unfold transition_spec in *. rewrite Ht in *.
  destruct (Z.ltb_spec 0 (aid_deploy_counter c)) as [H0|H0];
    destruct (Z.ltb_spec 0 (aid_deploy_counter c - 1)) as [H1|H1];
    try lia; simpl in *; repeat split; try assumption; lia.
Qed.

(** A tick that is not forced, sees no tilt and no survivor. *)
Lemma tick_quiet (d : Devices) (c : Controller) (inp : Step) :
  0 <= aid_deploy_counter c <= 1 ->
  frame_tilted d inp = false ->
  frame_survivor d inp = false ->
  controller (tick d c inp)
  = {| current_state :=
         if (frame_front d inp <? OBSTACLE_DISTANCE_THRESHOLD)%float
         then AVOIDING_OBSTACLE else SEARCHING;
       aid_deploy_counter := 0 |}
  /\ sends (trace (tick d c inp)) = 0%nat.
Proof.
  intros Hk Ht Hv. destruct (tick_spec d c inp) as (Hs & Hc & He).
  unfold transition_spec in *. rewrite Ht, Hv in *.
  destruct (Z.ltb_spec 0 (aid_deploy_counter c)) as [H0|H0];
    destruct (Z.ltb_spec 0 (aid_deploy_counter c - 1)) as [H1|H1];
    try lia; simpl in *;
    destruct (frame_front d inp <? OBSTACLE_DISTANCE_THRESHOLD)%float;
    simpl in *; (split; [apply controller_eta; [assumption|lia] | assumption]).
Qed.

(** The detection edge: not forced, no tilt, a survivor, and the state is
    not yet [DEPLOYING_AID]. *)
Lemma tick_detection_edge (d : Devices) (c : Controller) (inp : Step) :
  aid_deploy_counter c <= 1 ->
  frame_tilted d inp = false ->
  frame_survivor d inp = true ->
  current_state c <> DEPLOYING_AID ->
  controller (tick d c inp)
  = {| current_state := DEPLOYING_AID;
       aid_deploy_counter := AID_DEPLOY_DURATION |}
  /\ sends (trace (tick d c inp)) = (if emitter d then 1%nat else 0%nat).
Proof.
  intros Hk Ht Hv Hst. destruct (tick_spec d c inp) as (Hs & Hc & He).
  unfold transition_spec in *. rewrite Ht, Hv in *.
  destruct (Z.ltb_spec 0 (aid_deploy_counter c)) as [H0|H0];
    destruct (Z.ltb_spec 0 (aid_deploy_counter c - 1)) as [H1|H1];
    try lia; simpl in *;
    destruct (current_state c); try congruence; simpl in *;
    (split; [apply controller_eta|]; assumption).
Qed.

(** Detection while already in [DEPLOYING_AID] with the timer run out. *)
Lemma tick_redetection (d : Devices) (c : Controller) (inp : Step) :
  aid_deploy_counter c <= 1 ->
  frame_tilted d inp = false ->
  frame_survivor d inp = true ->
  current_state c = DEPLOYING_AID ->
  current_state (controller (tick d c inp)) = DEPLOYING_AID
  /\ aid_deploy_counter (controller (tick d c inp))
     = Z.min (aid_deploy_counter c) 0
  /\ sends (trace (tick d c inp)) = 0%nat.
Proof.
  intros Hk Ht Hv Hst. destruct (tick_spec d c inp) as (Hs & Hc & He).
  unfold transition_spec in *. rewrite Ht, Hv, Hst in *.
  destruct (Z.ltb_spec 0 (aid_deploy_counter c)) as [H0|H0];
    destruct (Z.ltb_spec 0 (aid_deploy_counter c - 1)) as [H1|H1];
    try lia; simpl in *; repeat split; try assumption; lia.
Qed.

(** ** C4: tilt *)

(** C4.  On a tick whose tilted flag is set: if the timer does not force
    the state (it is at most 1 before its decrement) the next state is
    Tilted whatever the prior state, the survivor flag and the distance
    readings are, and nothing is sent; if the timer is still non-zero after
    its decrement the next state is DeployingAid all the same. *)
Theorem tilt_precedence (d : Devices) (c : Controller) (inp : Step) :
  frame_tilted d inp = true ->
  (aid_deploy_counter c <= 1 ->
   current_state (controller (tick d c inp)) = ROBOT_TILTED
   /\ sends (trace (tick d c inp)) = 0%nat)
  /\ (1 < aid_deploy_counter c ->
      controller (tick d c inp)
      = {| current_state := DEPLOYING_AID;
           aid_deploy_counter := aid_deploy_counter c - 1 |}).
Proof.
  intros Ht. split; intros Hk.
  - destruct (tick_tilted d c inp Hk Ht) as (Hs & _ & He). split; assumption.
  - apply tick_forced. exact Hk.
Qed.

Lemma tilt_precedence_witness :
  (current_state (controller (tick all_devices initial_controller
                                tilted_survivor_step)) = ROBOT_TILTED
   /\ sends (trace (tick all_devices initial_controller
                      tilted_survivor_step)) = 0%nat)
  /\ controller (tick all_devices
                   {| current_state := DEPLOYING_AID; aid_deploy_counter := 7 |}
                   tilted_survivor_step)
     = {| current_state := DEPLOYING_AID; aid_deploy_counter := 7 - 1 |}.
Proof.
  split.
  - apply (tilt_precedence all_devices initial_controller tilted_survivor_step).
    + reflexivity.
    + simpl. lia.
  - apply (tilt_precedence all_devices
             {| current_state := DEPLOYING_AID; aid_deploy_counter := 7 |}
             tilted_survivor_step).
    + reflexivity.
    + simpl. lia.
Defined.

(** ** Runs of the loop *)

Lemma control_loop_length (d : Devices) (steps : list Step) :
  forall c, List.length (control_loop d c steps) = List.length steps.
Proof.
  induction steps as [|inp rest IH]; intros c; simpl; [|rewrite IH];
    reflexivity.
Qed.

Lemma control_loop_app (d : Devices) (a b : list Step) :
  forall c,
    control_loop d c (a ++ b)
    = control_loop d c a ++ control_loop d (final_controller d c a) b.
Proof.
  induction a as [|inp rest IH]; intros c; simpl; [reflexivity|].
  rewrite IH. reflexivity.
Qed.

Lemma run_trace_cons (d : Devices) (c : Controller) (inp : Step)
    (rest : list Step) :
  run_trace d c (inp :: rest)
  = trace (tick d c inp) ++ run_trace d (controller (tick d c inp)) rest.
Proof. reflexivity. Qed.

(** A run shorter than the timer is forced throughout. *)
Lemma forced_run (d : Devices) (steps : list Step) :
  forall k, Z.of_nat (List.length steps) < k ->
    let armed := {| current_state := DEPLOYING_AID; aid_deploy_counter := k |} in
    (forall i, (i < List.length steps)%nat ->
       nth_error (map controller (control_loop d armed steps)) i
       = Some {| current_state := DEPLOYING_AID;
                 aid_deploy_counter := k - 1 - Z.of_nat i |})
    /\ final_controller d armed steps
       = {| current_state := DEPLOYING_AID;
            aid_deploy_counter := k - Z.of_nat (List.length steps) |}
    /\ sends (run_trace d armed steps) = 0%nat.
Proof.
  induction steps as [|inp rest IH]; intros k Hk; cbv zeta.
  - simpl. repeat split.
    + intros i Hi. simpl in Hi. lia.
    + f_equal. lia.
  - simpl List.length in *.
    destruct (tick_forced d
                {| current_state := DEPLOYING_AID; aid_deploy_counter := k |}
                inp) as (Hc & He); [simpl; lia|].
    simpl aid_deploy_counter in Hc.
    destruct (IH (k - 1)) as (Hn & Hf & Hs); [lia|].
    repeat split.
    + intros [|i] Hi; simpl; rewrite Hc.
      * do 2 f_equal. lia.
      * rewrite Hn by lia. do 2 f_equal. lia.
    + simpl. rewrite Hc, Hf. f_equal. lia.
    + rewrite run_trace_cons, sends_app, He, Hc, Hs. reflexivity.
Qed.

(** The state of the loop is always in range, and a positive timer goes
    with [DEPLOYING_AID]. *)
Lemma reachable_invariant (d : Devices) (c : Controller) :
  reachable d c ->
  0 <= aid_deploy_counter c <= AID_DEPLOY_DURATION
  /\ (0 < aid_deploy_counter c -> current_state c = DEPLOYING_AID).
Proof.
  induction 1 as [|c inp Hr (Hrange & Hpos)].
  - simpl. unfold AID_DEPLOY_DURATION. split; [lia|]. intros H; lia.
  - destruct (tick_spec d c inp) as (Hs & Hc & _).
    rewrite Hs, Hc. clear Hs Hc.
    unfold transition_spec, AID_DEPLOY_DURATION in *.
    destruct (Z.ltb_spec 0 (aid_deploy_counter c)) as [H0|H0];
      destruct (Z.ltb_spec 0 (aid_deploy_counter c - 1)) as [H1|H1];
      try lia; simpl;
      try (split; [lia | reflexivity]);
      destruct (frame_tilted d inp); simpl; try (split; lia);
      destruct (frame_survivor d inp); simpl;
      try (destruct (current_state c); simpl; split; (lia || reflexivity));
      destruct (frame_front d inp <? OBSTACLE_DISTANCE_THRESHOLD)%float;
      simpl; split; lia.
Qed.

(** A tick that ends in [DEPLOYING_AID] commands both wheels to stop. *)
Lemma deploying_stops (d : Devices) (c : Controller) (inp : Step) :
  current_state (controller (tick d c inp)) = DEPLOYING_AID ->
  left_speed (tick d c inp) = 0%float /\ right_speed (tick d c inp) = 0%float.
Proof.
  intros Hs. pose proof (tick_speeds d c inp) as H.
  unfold execute_actions in H. rewrite Hs in H. simpl in H.
  inversion H. split; reflexivity.
Qed.

(** ** C3: the aid-deploy timer *)

(** C3.  In every state the loop reaches the timer lies between 0 and 50.
    It is set to 50 on the detection edge; while positive it loses exactly
    one per tick; while the decremented value is still positive the state is
    DeployingAid whatever the sensors say, and nothing is sent.  Armed to
    50, it forces DeployingAid for the next 49 ticks, counting 49, 48, ..., 1,
    and on the 50th tick, where it reaches 0, a frame without tilt and
    without survivor is evaluated normally: AvoidingObstacle when the front
    reading is below the threshold, Searching otherwise. *)
Theorem aid_deploy_timer_lifecycle (d : Devices) :
  (forall c, reachable d c -> 0 <= aid_deploy_counter c <= 50)
  /\ (forall c inp,
        aid_deploy_counter c <= 1 ->
        frame_tilted d inp = false ->
        frame_survivor d inp = true ->
        current_state c <> DEPLOYING_AID ->
        aid_deploy_counter (controller (tick d c inp)) = 50)
  /\ (forall c inp,
        reachable d c ->
        0 < aid_deploy_counter c ->
        aid_deploy_counter (controller (tick d c inp))
        = aid_deploy_counter c - 1)
  /\ (forall c inp,
        1 < aid_deploy_counter c ->
        current_state (controller (tick d c inp)) = DEPLOYING_AID
        /\ sends (trace (tick d c inp)) = 0%nat)
  /\ (forall steps inp,
        List.length steps = 49%nat ->
        frame_tilted d inp = false ->
        frame_survivor d inp = false ->
        let armed := {| current_state := DEPLOYING_AID;
                        aid_deploy_counter := AID_DEPLOY_DURATION |} in
        let after := map controller (control_loop d armed (steps ++ [inp])) in
        (forall i, (i < 49)%nat ->
           nth_error after i
           = Some {| current_state := DEPLOYING_AID;
                     aid_deploy_counter := 49 - Z.of_nat i |})
        /\ nth_error after 49
           = Some {| current_state :=
                       if (frame_front d inp <? OBSTACLE_DISTANCE_THRESHOLD)%float
                       then AVOIDING_OBSTACLE else SEARCHING;
                     aid_deploy_counter := 0 |}).
Proof.
  split; [|split; [|split; [|split]]].
  - intros c Hr. apply (reachable_invariant d c Hr).
  - intros c inp Hk Ht Hv Hst.
    destruct (tick_detection_edge d c inp Hk Ht Hv Hst) as [-> _].
    reflexivity.
  - intros c inp Hr Hk.
    destruct (reachable_invariant d c Hr) as [_ Hst].
    specialize (Hst Hk).
    destruct (tick_spec d c inp) as (_ & Hc & _). rewrite Hc.
    unfold transition_spec. rewrite Hst.
    destruct (Z.ltb_spec 0 (aid_deploy_counter c)) as [H0|H0]; [|lia].
    destruct (Z.ltb_spec 0 (aid_deploy_counter c - 1)); simpl;
      [reflexivity|].
    destruct (frame_tilted d inp); [reflexivity|].
    destruct (frame_survivor d inp); [reflexivity|].
    destruct (frame_front d inp <? OBSTACLE_DISTANCE_THRESHOLD)%float;
      reflexivity.
  - intros c inp Hk. destruct (tick_forced d c inp Hk) as [-> He].
    split; [reflexivity | exact He].
  - intros steps inp Hlen Ht Hv. cbv zeta.
    destruct (forced_run d steps AID_DEPLOY_DURATION) as (Hn & Hf & _).
    { rewrite Hlen. reflexivity. }
    rewrite control_loop_app, map_app, Hf, Hlen. simpl control_loop.
    destruct (tick_quiet d
                {| current_state := DEPLOYING_AID;
                   aid_deploy_counter := 1 |}
                inp) as [Hq _]; [simpl; lia | assumption | assumption |].
    split.
    + intros i Hi.
      rewrite nth_error_app1
        by (rewrite length_map, control_loop_length, Hlen; exact Hi).
      rewrite Hn by (rewrite Hlen; exact Hi).
      unfold AID_DEPLOY_DURATION. do 2 f_equal.
    + rewrite nth_error_app2
        by (rewrite length_map, control_loop_length, Hlen; lia).
      rewrite length_map, control_loop_length, Hlen, Nat.sub_diag.
      cbn [map nth_error]. rewrite Hq. reflexivity.
Qed.

Lemma aid_deploy_timer_lifecycle_witness :
  let armed := controller (tick all_devices initial_controller survivor_step) in
  0 <= aid_deploy_counter armed <= 50
  /\ aid_deploy_counter armed = 50
  /\ aid_deploy_counter (controller (tick all_devices armed clear_step))
     = aid_deploy_counter armed - 1
  /\ (current_state (controller (tick all_devices armed tilted_survivor_step))
      = DEPLOYING_AID
      /\ sends (trace (tick all_devices armed tilted_survivor_step)) = 0%nat)
  /\ nth_error
       (map controller
          (control_loop all_devices
             {| current_state := DEPLOYING_AID;
                aid_deploy_counter := AID_DEPLOY_DURATION |}
             (repeat (obstacle_step 0.5 0.5) 49 ++ [clear_step]))) 49
     = Some {| current_state :=
                 if (frame_front all_devices clear_step
                     <? OBSTACLE_DISTANCE_THRESHOLD)%float
                 then AVOIDING_OBSTACLE else SEARCHING;
               aid_deploy_counter := 0 |}.
Proof.
  cbv zeta.
  destruct (aid_deploy_timer_lifecycle all_devices)
    as (Hrange & Hedge & Hdec & Hforced & Hrun).
  split; [|split; [|split; [|split]]].
  - apply Hrange. apply reachable_tick, reachable_init.
  - apply Hedge.
    + simpl. lia.
    + reflexivity.
    + reflexivity.
    + discriminate.
  - apply Hdec.
    + apply reachable_tick, reachable_init.
    + reflexivity.
  - apply Hforced. reflexivity.
  - apply (Hrun (repeat (obstacle_step 0.5 0.5) 49) clear_step).
    + reflexivity.
    + reflexivity.
    + reflexivity.
Defined.

(** ** C2: the one-shot message *)

(** C2.  A tick that sees a survivor while the state is already
    DeployingAid, or while the timer forces it, sends nothing and does not
    re-arm the timer: the timer only takes its usual decrement.  And from a
    state other than DeployingAid with the timer run out, ten consecutive
    ticks that all see a survivor (the first without tilt), with the
    emitter present, send exactly once, every one of the ten ticks ending
    in DeployingAid with the timer still armed. *)
Theorem one_shot_emission (d : Devices) :
  (forall c inp,
     frame_survivor d inp = true ->
     current_state c = DEPLOYING_AID \/ 1 < aid_deploy_counter c ->
     sends (trace (tick d c inp)) = 0%nat
     /\ aid_deploy_counter (controller (tick d c inp))
        = (if 0 <? aid_deploy_counter c then aid_deploy_counter c - 1
           else aid_deploy_counter c))
  /\ (forall c inp0 rest,
        emitter d = true ->
        current_state c <> DEPLOYING_AID ->
        aid_deploy_counter c <= 1 ->
        List.length (inp0 :: rest) = 10%nat ->
        Forall (fun inp => frame_survivor d inp = true) (inp0 :: rest) ->
        frame_tilted d inp0 = false ->
        sends (run_trace d c (inp0 :: rest)) = 1%nat
        /\ Forall (fun t => current_state (controller t) = DEPLOYING_AID
                            /\ 0 < aid_deploy_counter (controller t))
             (control_loop d c (inp0 :: rest))).
Proof.
  split.
  - intros c inp Hv Hor.
    destruct (tick_spec d c inp) as (_ & Hc & He). rewrite Hc, He.
    unfold transition_spec. rewrite Hv.
    destruct (Z.ltb_spec 0 (aid_deploy_counter c)) as [H0|H0];
      destruct (Z.ltb_spec 0 (aid_deploy_counter c - 1)) as [H1|H1];
      try lia; simpl; try (split; reflexivity);
      (destruct Hor as [Hst|Hk]; [rewrite Hst | lia]);
      destruct (frame_tilted d inp); split; reflexivity.
  - intros c inp0 rest Hem Hst Hk Hlen Hall Ht.
    inversion Hall as [|x l Hv0 _]; subst x l.
    destruct (tick_detection_edge d c inp0 Hk Ht Hv0 Hst) as [Hc He].
    rewrite Hem in He.
    simpl in Hlen.
    destruct (forced_run d rest AID_DEPLOY_DURATION) as (Hn & _ & Hs).
    { unfold AID_DEPLOY_DURATION. lia. }
    split.
    + rewrite run_trace_cons, sends_app, He, Hc, Hs. reflexivity.
    + simpl. constructor.
      * rewrite Hc. simpl. split; [reflexivity|].
        unfold AID_DEPLOY_DURATION. lia.
      * rewrite Hc. apply Forall_forall. intros t Hin.
        apply (In_nth_error _ t) in Hin. destruct Hin as [i Hi].
        assert (Hlt : (i < List.length rest)%nat).
        { rewrite <- (control_loop_length d rest
                        {| current_state := DEPLOYING_AID;
                           aid_deploy_counter := AID_DEPLOY_DURATION |}).
          apply nth_error_Some. congruence. }
        specialize (Hn i Hlt).
        rewrite nth_error_map, Hi in Hn. cbn [option_map] in Hn.
        injection Hn as ->. split; [reflexivity|].
        change (0 < AID_DEPLOY_DURATION - 1 - Z.of_nat i).
        unfold AID_DEPLOY_DURATION. lia.
Qed.

Lemma one_shot_emission_witness :
  (sends (trace (tick all_devices
                   {| current_state := DEPLOYING_AID; aid_deploy_counter := 0 |}
                   survivor_step)) = 0%nat
   /\ aid_deploy_counter
        (controller (tick all_devices
                       {| current_state := DEPLOYING_AID;
                          aid_deploy_counter := 0 |}
                       survivor_step))
      = 0)
  /\ sends (run_trace all_devices initial_controller
              (repeat survivor_step 10)) = 1%nat
  /\ Forall (fun t => current_state (controller t) = DEPLOYING_AID
                      /\ 0 < aid_deploy_counter (controller t))
       (control_loop all_devices initial_controller (repeat survivor_step 10)).
Proof.
  destruct (one_shot_emission all_devices) as [Hone Hrun].
  split.
  - apply (Hone {| current_state := DEPLOYING_AID; aid_deploy_counter := 0 |}
             survivor_step).
    + reflexivity.
    + left. reflexivity.
  - apply (Hrun initial_controller survivor_step (repeat survivor_step 9)).
    + reflexivity.
    + discriminate.
    + simpl. lia.
    + reflexivity.
    + repeat constructor.
    + reflexivity.
Defined.

(** ** C10: detection that outlasts the timer *)

(** C10.  With the timer at 0 and the state DeployingAid, a tick that is
    not tilted and sees a survivor leaves the state DeployingAid and the
    timer 0, sends nothing and commands both wheels to stop; so over any
    number of such ticks the robot stays halted in DeployingAid and never
    falls through to AvoidingObstacle or Searching. *)
Theorem redetection_keeps_deploying (d : Devices) (steps : list Step) :
  Forall (fun inp => frame_tilted d inp = false
                     /\ frame_survivor d inp = true) steps ->
  let halted := {| current_state := DEPLOYING_AID; aid_deploy_counter := 0 |} in
  List.length (control_loop d halted steps) = List.length steps
  /\ Forall (fun t => controller t = halted
                      /\ sends (trace t) = 0%nat
                      /\ left_speed t = 0%float
                      /\ right_speed t = 0%float)
       (control_loop d halted steps).
Proof.
  intros Hall. cbv zeta. split; [apply control_loop_length|].
  induction Hall as [|inp rest [Ht Hv] _ IH]; simpl; [constructor|].
  destruct (tick_redetection d
              {| current_state := DEPLOYING_AID; aid_deploy_counter := 0 |}
              inp) as (Hs & Hc & He);
    [simpl; lia | assumption | assumption | reflexivity |].
  simpl in Hc.
  assert (Hctl : controller (tick d {| current_state := DEPLOYING_AID;
                                       aid_deploy_counter := 0 |} inp)
                 = {| current_state := DEPLOYING_AID;
                      aid_deploy_counter := 0 |}).
  { apply controller_eta; assumption. }
  destruct (deploying_stops d _ inp Hs) as [Hl Hr].
  constructor.
  - repeat split; assumption.
  - rewrite Hctl. exact IH.
Qed.

Lemma redetection_keeps_deploying_witness :
  List.length
    (control_loop all_devices
       {| current_state := DEPLOYING_AID; aid_deploy_counter := 0 |}
       (repeat survivor_step 3)) = 3%nat
  /\ Forall (fun t => controller t
                      = {| current_state := DEPLOYING_AID;
                           aid_deploy_counter := 0 |}
                      /\ sends (trace t) = 0%nat
                      /\ left_speed t = 0%float
                      /\ right_speed t = 0%float)
       (control_loop all_devices
          {| current_state := DEPLOYING_AID; aid_deploy_counter := 0 |}
          (repeat survivor_step 3)).
Proof.
  apply (redetection_keeps_deploying all_devices (repeat survivor_step 3)).
  repeat constructor.
Defined.

(** ** C5: the avoidance turn *)

(** The turn is to the right exactly when the left reading is strictly
    below the right one. *)
Lemma avoiding_turn (d : Devices) (k : Z) (ds : list float) :
  fst (execute_actions d
         {| current_state := AVOIDING_OBSTACLE; aid_deploy_counter := k |} ds)
  = if (array_get ds 1 <? array_get ds 2)%float
    then (4.0%float, (-4.0)%float) else ((-4.0)%float, 4.0%float).
Proof.
  unfold execute_actions. simpl.
  destruct (array_get ds 1 <? array_get ds 2)%float; reflexivity.
Qed.

(** C5.  With a wall ahead the robot is in AvoidingObstacle and spins with
    wheel speeds 4 and -4: to the right (left wheel forward) for left
    reading 0.2 and right reading 0.5, to the left for the readings
    reversed, and, the readings being equal (0.5 and 0.5), to the left as
    well: the tie takes the branch of the reversed readings, not the
    right turn. *)
Theorem avoid_tie_turns_left :
  let turn l r := tick all_devices initial_controller (obstacle_step l r) in
  let speeds t := (current_state (controller t), left_speed t, right_speed t) in
  speeds (turn 0.2 0.5)%float = (AVOIDING_OBSTACLE, 4.0, -4.0)%float
  /\ speeds (turn 0.5 0.2)%float = (AVOIDING_OBSTACLE, -4.0, 4.0)%float
  /\ speeds (turn 0.5 0.5)%float = (AVOIDING_OBSTACLE, -4.0, 4.0)%float
  /\ In (printf (AvoidingTurningLeft 0.5 0.5)) (trace (turn 0.5 0.5)%float).
Proof.
  cbv zeta. repeat split; try (vm_compute; reflexivity).
  vm_compute. right. right. right. left. reflexivity.
Qed.

(** ** C8: the actuator mapping *)

Lemma led_value_app (l : Led) (a b : list Output) :
  forall v, led_value l (a ++ b) v = led_value l b (led_value l a v).
Proof.
  induction a as [|o a IH]; intros v; simpl; [reflexivity|].
  destruct o; apply IH.
Qed.

Lemma led_value_no_led (l : Led) (t : list Output) :
  forallb (fun o => negb (is_led_set o)) t = true ->
  forall v, led_value l t v = v.
Proof.
  induction t as [|o t IH]; simpl; intros H v; [reflexivity|].
  apply andb_true_iff in H. destruct H as [Ho Ht].
  destruct o; simpl in Ho; try discriminate; apply IH; exact Ht.
Qed.

Lemma scan_log_no_led (d : Devices) (inp : Step) :
  forallb (fun o => negb (is_led_set o)) (scan_log (read_sensors d inp)) = true.
Proof.
  rewrite read_sensors_unrolled.
  destruct (sensor_matches d inp 0); [reflexivity|].
  destruct (sensor_matches d inp 1); [reflexivity|].
  destruct (sensor_matches d inp 2); reflexivity.
Qed.

Lemma determine_state_no_led (d : Devices) (c : Controller)
    (tilted survivor : bool) (front : float) :
  forallb (fun o => negb (is_led_set o))
    (snd (determine_state d c tilted survivor front)) = true.
Proof.
  destruct c as [st k].
  unfold determine_state, timer_logic, send_signal. simpl.
  destruct (0 <? k); simpl; [destruct (k - 1 =? 0); simpl|];
    try reflexivity;
    destruct tilted, survivor, st,
      (front <? OBSTACLE_DISTANCE_THRESHOLD)%float, (emitter d);
    reflexivity.
Qed.

(** The LEDs of a tick are those of its step 3. *)
Lemma led_value_tick (d : Devices) (c : Controller) (inp : Step) (l : Led) :
  led_value l (trace (tick d c inp)) None
  = led_value l (snd (execute_actions d (controller (tick d c inp))
                        (ds_values (read_sensors d inp)))) None.
Proof.
  rewrite tick_trace, !led_value_app.
  rewrite (led_value_no_led l _ (scan_log_no_led d inp)).
  rewrite (led_value_no_led l _ (determine_state_no_led d c _ _ _)).
  reflexivity.
Qed.

(** C8.  After a tick that ends in Tilted both wheels are commanded 0 and
    every LED the robot has is left on; after one that ends in
    DeployingAid both wheels are commanded 0 and every LED is on exactly
    when the countdown modulo 4 is below 2; after one that ends in
    Searching both wheels are commanded the cruise speed 5.  The two
    velocities are the last commands of the tick. *)
Theorem actuator_mapping (d : Devices) (c : Controller) (inp : Step) :
  let t := tick d c inp in
  (current_state (controller t) = ROBOT_TILTED ->
   left_speed t = 0%float /\ right_speed t = 0%float
   /\ forall l, has_led d l = true -> led_value l (trace t) None = Some 1)
  /\ (current_state (controller t) = DEPLOYING_AID ->
      left_speed t = 0%float /\ right_speed t = 0%float
      /\ forall l, has_led d l = true ->
           led_value l (trace t) None
           = Some (if Z.rem (aid_deploy_counter (controller t)) 4 <? 2
                   then 1 else 0))
  /\ (current_state (controller t) = SEARCHING ->
      left_speed t = 5.0%float /\ right_speed t = 5.0%float)
  /\ (exists before,
        trace t = before ++ [wb_motor_set_velocity LeftWheel (left_speed t);
                             wb_motor_set_velocity RightWheel (right_speed t)]).
Proof.
  cbv zeta. pose proof (tick_speeds d c inp) as Hsp.
  split; [|split; [|split]].
  - intros Hs. unfold execute_actions in Hsp. rewrite Hs in Hsp.
    simpl in Hsp. inversion Hsp. repeat split.
    intros l Hl. rewrite led_value_tick. unfold execute_actions. rewrite Hs.
    unfold leds_on, led_set.
    destruct l; simpl in *; rewrite Hl;
      [destruct (right_led d) | destruct (left_led d)]; reflexivity.
  - intros Hs. unfold execute_actions in Hsp. rewrite Hs in Hsp.
    simpl in Hsp. inversion Hsp. repeat split.
    intros l Hl. rewrite led_value_tick. unfold execute_actions. rewrite Hs.
    unfold leds_on, led_set.
    destruct (Z.rem (aid_deploy_counter (controller (tick d c inp))) 4 <? 2);
      destruct l; simpl in *; rewrite Hl;
      [destruct (right_led d) | destruct (left_led d)
       | destruct (right_led d) | destruct (left_led d)]; reflexivity.
  - intros Hs. unfold execute_actions in Hsp. rewrite Hs in Hsp.
    simpl in Hsp. injection Hsp as Hl Hr. split; assumption.
  - rewrite tick_trace, !app_assoc. eexists. reflexivity.
Qed.

Lemma actuator_mapping_witness :
  (left_speed (tick all_devices initial_controller tilted_survivor_step)
   = 0%float
   /\ right_speed (tick all_devices initial_controller tilted_survivor_step)
      = 0%float
   /\ forall l, has_led all_devices l = true ->
        led_value l (trace (tick all_devices initial_controller
                              tilted_survivor_step)) None = Some 1)
  /\ (left_speed (tick all_devices initial_controller survivor_step) = 0%float
      /\ right_speed (tick all_devices initial_controller survivor_step)
         = 0%float
      /\ forall l, has_led all_devices l = true ->
           led_value l (trace (tick all_devices initial_controller
                                 survivor_step)) None
           = Some (if Z.rem (aid_deploy_counter
                               (controller (tick all_devices initial_controller
                                              survivor_step))) 4 <? 2
                   then 1 else 0))
  /\ (left_speed (tick all_devices initial_controller clear_step) = 5.0%float
      /\ right_speed (tick all_devices initial_controller clear_step)
         = 5.0%float).
Proof.
  split; [|split].
  - destruct (actuator_mapping all_devices initial_controller
                tilted_survivor_step) as (H & _).
    apply H. reflexivity.
  - destruct (actuator_mapping all_devices initial_controller survivor_step)
      as (_ & H & _).
    apply H. reflexivity.
  - destruct (actuator_mapping all_devices initial_controller clear_step)
      as (_ & _ & H & _).
    apply H. reflexivity.
Defined.

(** ** C9: missing devices *)

(** What step 2 logs on the detection edge. *)
Lemma detection_edge_log (d : Devices) (c : Controller) (front : float) :
  aid_deploy_counter c <= 1 ->
  current_state c <> DEPLOYING_AID ->
  exists before,
    snd (determine_state d c false true front)
    = before ++ printf ChangeSurvivorDetected :: send_signal d.
Proof.
  destruct c as [st k]. simpl. intros Hk Hst.
  unfold determine_state, timer_logic. simpl.
  destruct (Z.ltb_spec 0 k) as [H0|H0]; simpl.
  - destruct (Z.eqb_spec (k - 1) 0) as [H1|H1]; [|lia]. simpl.
    destruct st; try congruence; simpl;
      exists [printf AidDeploymentFinished]; reflexivity.
  - destruct st; try congruence; simpl; exists []; reflexivity.
Qed.

Lemma missing_led_untouched (d : Devices) (c : Controller) (ds : list float)
    (l : Led) :
  has_led d l = false ->
  led_value l (snd (execute_actions d c ds)) None = None.
Proof.
  intros Hl. unfold execute_actions, leds_on, led_set.
  destruct l; simpl in Hl; simpl; rewrite Hl;
    destruct (current_state c); simpl;
    try destruct (Z.rem (aid_deploy_counter c) 4 <? 2);
    try destruct (array_get ds 1 <? array_get ds 2)%float;
    try destruct (right_led d); try destruct (left_led d); reflexivity.
Qed.

(** C9, as the code has it.  A missing wheel motor ends [main] with status
    1 before the loop, nothing done.  Otherwise start-up succeeds: each
    missing distance sensor, a missing accelerometer and a missing emitter
    are each reported by their own line, and a warning is logged exactly
    when one of those five devices is missing (the LEDs play no part);
    the loop then runs every tick and [main] returns 0.  During the loop a
    missing distance sensor reads 999.0, a missing accelerometer never
    reports a tilt, and a missing LED receives no command.  On the
    detection edge with the emitter missing nothing is sent, the failure
    is logged, the state is DeployingAid with the timer armed to 50, and
    the forced ticks that follow send nothing either. *)
Theorem error_handling_outcomes (d : Devices) :
  (left_motor d = false \/ right_motor d = false ->
   startup d = None /\ forall steps, main d steps = (1, [], []))
  /\ (left_motor d = true -> right_motor d = true ->
      exists log,
        startup d = Some log
        /\ (forall i, (i < 3)%nat ->
              nth i (distance_sensors d) false = false ->
              In (printf (WarnDistanceSensorNotFound i)) log)
        /\ (accelerometer d = false ->
            In (printf WarnAccelerometerNotFound) log)
        /\ (emitter d = false -> In (printf ErrorEmitterNotFound) log)
        /\ existsb is_warning log
           = negb (ds_front d && ds_left d && ds_right d
                   && accelerometer d && emitter d)
        /\ forall steps,
             main d steps
             = (0, log ++ run_trace d initial_controller steps,
                control_loop d initial_controller steps)
             /\ List.length (control_loop d initial_controller steps)
                = List.length steps)
  /\ (forall c inp,
        (forall i, nth i (distance_sensors d) false = false ->
           array_get (ds_values (read_sensors d inp)) i = 999.0%float)
        /\ (accelerometer d = false -> frame_tilted d inp = false)
        /\ (forall l, has_led d l = false ->
              led_value l (trace (tick d c inp)) None = None))
  /\ (forall c inp,
        emitter d = false ->
        aid_deploy_counter c <= 1 ->
        frame_tilted d inp = false ->
        frame_survivor d inp = true ->
        current_state c <> DEPLOYING_AID ->
        controller (tick d c inp)
        = {| current_state := DEPLOYING_AID; aid_deploy_counter := 50 |}
        /\ sends (trace (tick d c inp)) = 0%nat
        /\ In (printf EmitterCannotSend) (trace (tick d c inp))
        /\ forall steps, (List.length steps < 50)%nat ->
             sends (run_trace d (controller (tick d c inp)) steps) = 0%nat).
Proof.
  split; [|split; [|split]].
  - intros H.
    assert (Hs : startup d = None).
    { unfold startup. destruct H as [-> | ->]; simpl;
        [|rewrite orb_true_r]; reflexivity. }
    split; [exact Hs|]. intros steps. unfold main. rewrite Hs. reflexivity.
  - intros Hl Hr. unfold main, startup. rewrite Hl, Hr. simpl negb.
    cbn [orb]. eexists. split; [reflexivity|].
    unfold enable_distance_sensor, distance_sensors.
    split; [|split; [|split; [|split]]].
    + intros i Hi Hav. destruct i as [|[|[|i]]]; [| | |lia];
        simpl in Hav; rewrite Hav;
        destruct (ds_front d), (ds_left d), (ds_right d), (accelerometer d),
          (emitter d); find_in.
    + intros ->.
      destruct (ds_front d), (ds_left d), (ds_right d), (emitter d); find_in.
    + intros ->.
      destruct (ds_front d), (ds_left d), (ds_right d), (accelerometer d);
        find_in.
    + destruct (ds_front d), (ds_left d), (ds_right d), (accelerometer d),
        (emitter d); reflexivity.
    + intros steps. split; [reflexivity | apply control_loop_length].
  - intros c inp. split; [|split].
    + intros i Hav. rewrite read_sensors_unrolled.
      assert (Hm : sensor_matches d inp i = false).
      { unfold sensor_matches. rewrite Hav. reflexivity. }
      assert (Hrd : reading d inp i = NO_READING).
      { unfold reading. rewrite Hav. reflexivity. }
      destruct i as [|[|[|i]]].
      * rewrite Hm.
        destruct (sensor_matches d inp 1); [exact Hrd|].
        destruct (sensor_matches d inp 2); exact Hrd.
      * destruct (sensor_matches d inp 0); [reflexivity|]. rewrite Hm.
        destruct (sensor_matches d inp 2); exact Hrd.
      * destruct (sensor_matches d inp 0); [reflexivity|].
        destruct (sensor_matches d inp 1); [reflexivity|].
        rewrite Hm. exact Hrd.
      * destruct (sensor_matches d inp 0); [|destruct (sensor_matches d inp 1);
          [|destruct (sensor_matches d inp 2)]];
          unfold array_get; simpl; destruct i; reflexivity.
    + intros Ha. unfold frame_tilted, read_tilt. rewrite Ha. reflexivity.
    + intros l Hl. rewrite led_value_tick.
      apply missing_led_untouched. exact Hl.
  - intros c inp Hem Hk Ht Hv Hst.
    destruct (tick_detection_edge d c inp Hk Ht Hv Hst) as [Hc He].
    rewrite Hem in He. split; [exact Hc|]. split; [exact He|]. split.
    + rewrite tick_trace, Ht, Hv.
      destruct (detection_edge_log d c (frame_front d inp) Hk Hst)
        as [before ->].
      unfold send_signal. rewrite Hem.
      apply in_or_app. right. apply in_or_app. left.
      apply in_or_app. right. simpl. auto.
    + intros steps Hlen. rewrite Hc.
      apply (forced_run d steps AID_DEPLOY_DURATION).
      unfold AID_DEPLOY_DURATION. lia.
Qed.

Lemma error_handling_outcomes_witness :
  (startup no_left_motor = None
   /\ forall steps, main no_left_motor steps = (1, [], []))
  /\ (exists log,
        startup wheels_only = Some log
        /\ In (printf (WarnDistanceSensorNotFound 0)) log
        /\ In (printf WarnAccelerometerNotFound) log
        /\ In (printf ErrorEmitterNotFound) log)
  /\ (frame_tilted wheels_only tilted_survivor_step = false
      /\ led_value LeftLed
           (trace (tick wheels_only initial_controller tilted_survivor_step))
           None = None)
  /\ controller (tick no_emitter initial_controller survivor_step)
     = {| current_state := DEPLOYING_AID; aid_deploy_counter := 50 |}
  /\ sends (trace (tick no_emitter initial_controller survivor_step)) = 0%nat
  /\ In (printf EmitterCannotSend)
       (trace (tick no_emitter initial_controller survivor_step))
  /\ forall steps, (List.length steps < 50)%nat ->
       sends (run_trace no_emitter
                (controller (tick no_emitter initial_controller survivor_step))
                steps) = 0%nat.
Proof.
  split; [|split; [|split]].
  - destruct (error_handling_outcomes no_left_motor) as (H & _).
    apply H. left. reflexivity.
  - destruct (error_handling_outcomes wheels_only) as (_ & H & _).
    destruct H as (log & Hlog & Hds & Hacc & Hem & _);
      [reflexivity | reflexivity |].
    exists log. split; [exact Hlog|]. split; [|split].
    + apply (Hds 0%nat); [lia | reflexivity].
    + apply Hacc. reflexivity.
    + apply Hem. reflexivity.
  - destruct (error_handling_outcomes wheels_only) as (_ & _ & H & _).
    destruct (H initial_controller tilted_survivor_step) as (_ & Hacc & Hled).
    split.
    + apply Hacc. reflexivity.
    + apply (Hled LeftLed). reflexivity.
  - destruct (error_handling_outcomes no_emitter) as (_ & _ & _ & H).
    apply (H initial_controller survivor_step).
    + reflexivity.
    + simpl. lia.
    + reflexivity.
    + reflexivity.
    + discriminate.
Defined.

(** Not every missing optional device is reported: without the left LED
    start-up logs no warning at all and does exactly what it does with
    every device present, and the ticks log none either. *)
Lemma missing_led_not_reported :
  left_led no_left_led = false
  /\ optional_missing no_left_led = true
  /\ option_map (existsb is_warning) (startup no_left_led) = Some false
  /\ startup no_left_led = startup all_devices
  /\ existsb is_warning
       (run_trace no_left_led initial_controller
          [clear_step; survivor_step; tilted_survivor_step])
     = false.
Proof. repeat split; vm_compute; reflexivity. Qed.

(** * Further properties of the loop *)

(** ** What a tick writes *)

(** Outputs that only step 2 can produce are found in its log alone. *)
Lemma filter_tick (p : Output -> bool) (d : Devices) (c : Controller)
    (inp : Step) :
  (forall i, p (printf (SurvivorDetectedBySensor i)) = false) ->
  (forall l v, p (wb_led_set l v) = false) ->
  (forall l r, p (printf (AvoidingTurningRight l r)) = false) ->
  (forall l r, p (printf (AvoidingTurningLeft l r)) = false) ->
  (forall w v, p (wb_motor_set_velocity w v) = false) ->
  filter p (trace (tick d c inp))
  = filter p (snd (determine_state d c (frame_tilted d inp)
                     (frame_survivor d inp) (frame_front d inp))).
Proof.
  intros Hscan Hled Hright Hleft Hmotor.
  rewrite tick_trace, !filter_app.
  assert (H1 : filter p (scan_log (read_sensors d inp)) = []).
  { rewrite read_sensors_unrolled.
    destruct (sensor_matches d inp 0); [simpl; rewrite Hscan; reflexivity|].
    destruct (sensor_matches d inp 1); [simpl; rewrite Hscan; reflexivity|].
    destruct (sensor_matches d inp 2); simpl; rewrite ?Hscan; reflexivity. }
  assert (H3 : forall c' ds, filter p (snd (execute_actions d c' ds)) = []).
  { intros c' ds. unfold execute_actions, leds_on, led_set, has_led.
    destruct (current_state c'), (left_led d), (right_led d); simpl;
      try destruct (Z.rem (aid_deploy_counter c') 4 <? 2);
      try destruct (array_get ds 1 <? array_get ds 2)%float;
      simpl; rewrite ?Hled, ?Hright, ?Hleft; reflexivity. }
  rewrite H1, H3. simpl. rewrite !Hmotor, app_nil_r. reflexivity.
Qed.

Lemma count_if_tick (p : Output -> bool) (d : Devices) (c : Controller)
    (inp : Step) :
  (forall i, p (printf (SurvivorDetectedBySensor i)) = false) ->
  (forall l v, p (wb_led_set l v) = false) ->
  (forall l r, p (printf (AvoidingTurningRight l r)) = false) ->
  (forall l r, p (printf (AvoidingTurningLeft l r)) = false) ->
  (forall w v, p (wb_motor_set_velocity w v) = false) ->
  count_if p (trace (tick d c inp))
  = count_if p (snd (determine_state d c (frame_tilted d inp)
                       (frame_survivor d inp) (frame_front d inp))).
Proof.
  intros. unfold count_if. rewrite filter_tick by assumption. reflexivity.
Qed.

(** ** The emitter *)

(** X1.  Everything a tick puts on the emitter: one message, "SURVIVOR_FOUND"
    with its terminator (15 bytes), on a detection edge of a robot that has
    an emitter, and nothing at all on any other tick. *)
Theorem emitter_traffic (d : Devices) (c : Controller) (inp : Step) :
  filter is_send (trace (tick d c inp))
  = if emitter d && detection_edge d c inp
    then [wb_emitter_send "SURVIVOR_FOUND" 15]
    else [].
Proof.
  rewrite filter_tick by reflexivity.
  unfold detection_edge.
  destruct c as [st k]. unfold determine_state, timer_logic, send_signal.
  simpl.
  destruct (Z.leb_spec k 1) as [Hle|Hle];
    destruct (Z.ltb_spec 0 k) as [H0|H0]; try lia; simpl.
  - destruct (Z.eqb_spec (k - 1) 0) as [H1|H1]; [|lia]. simpl.
    destruct (frame_tilted d inp), (frame_survivor d inp), st,
      (frame_front d inp <? OBSTACLE_DISTANCE_THRESHOLD)%float, (emitter d);
      reflexivity.
  - destruct (frame_tilted d inp), (frame_survivor d inp), st,
      (frame_front d inp <? OBSTACLE_DISTANCE_THRESHOLD)%float, (emitter d);
      reflexivity.
  - destruct (Z.eqb_spec (k - 1) 0) as [H1|H1]; [lia|]. simpl.
    rewrite andb_false_r. reflexivity.
Qed.

Lemma sends_at_most_one (d : Devices) (c : Controller) (inp : Step) :
  sends (trace (tick d c inp)) = 0%nat
  \/ (sends (trace (tick d c inp)) = 1%nat
      /\ controller (tick d c inp)
         = {| current_state := DEPLOYING_AID;
              aid_deploy_counter := AID_DEPLOY_DURATION |}).
Proof.
  destruct (tick_spec d c inp) as (Hs & Hc & He).
  unfold transition_spec in *.
  destruct ((0 <? aid_deploy_counter c)
            && (0 <? (if 0 <? aid_deploy_counter c
                      then aid_deploy_counter c - 1
                      else aid_deploy_counter c))); simpl in *; [auto|].
  destruct (frame_tilted d inp); simpl in *; [auto|].
  destruct (frame_survivor d inp); simpl in *.
  - destruct (current_state c); simpl in *;
      try (left; exact He);
      (destruct (emitter d); [right | left; exact He]);
      (split; [exact He | apply controller_eta; assumption]).
  - destruct (frame_front d inp <? OBSTACLE_DISTANCE_THRESHOLD)%float;
      simpl in *; auto.
Qed.

(** X2.  Any 50 consecutive ticks, from any controller state and on any
    inputs, carry at most one message. *)
Theorem one_send_per_fifty_ticks (d : Devices) (steps : list Step) :
  forall c,
    (List.length steps <= 50)%nat ->
    (sends (run_trace d c steps) <= 1)%nat.
Proof.
  induction steps as [|inp rest IH]; intros c Hlen.
  - unfold run_trace, sends. simpl. lia.
  - simpl in Hlen. rewrite run_trace_cons, sends_app.
    destruct (sends_at_most_one d c inp) as [H0 | [H1 Hc]].
    + rewrite H0. apply IH. lia.
    + rewrite H1, Hc.
      destruct (forced_run d rest AID_DEPLOY_DURATION) as (_ & _ & Hs).
      { unfold AID_DEPLOY_DURATION. lia. }
      rewrite Hs. lia.
Qed.

Lemma one_send_per_fifty_ticks_witness :
  (sends (run_trace all_devices initial_controller
            (repeat survivor_step 50)) <= 1)%nat.
Proof.
  apply (one_send_per_fifty_ticks all_devices (repeat survivor_step 50)).
  simpl. lia.
Defined.

(** ** The log *)

(** X3.  "Aid Deployment Finished" is printed on the tick that takes the timer
    from 1 to 0, once, and on no other tick. *)
Theorem finished_line_when_timer_expires (d : Devices) (c : Controller)
    (inp : Step) :
  count_if is_finished (trace (tick d c inp))
  = if aid_deploy_counter c =? 1 then 1%nat else 0%nat.
Proof.
  rewrite count_if_tick by reflexivity.
  destruct c as [st k]. unfold determine_state, timer_logic, send_signal.
  simpl.
  destruct (Z.eqb_spec k 1) as [H1|H1];
    destruct (Z.ltb_spec 0 k) as [H0|H0]; try lia; simpl.
  - destruct (Z.eqb_spec (k - 1) 0) as [H2|H2]; [|lia]. simpl.
    destruct (frame_tilted d inp), (frame_survivor d inp), st,
      (frame_front d inp <? OBSTACLE_DISTANCE_THRESHOLD)%float, (emitter d);
      reflexivity.
  - destruct (Z.eqb_spec (k - 1) 0) as [H2|H2]; [lia|]. reflexivity.
  - destruct (frame_tilted d inp), (frame_survivor d inp), st,
      (frame_front d inp <? OBSTACLE_DISTANCE_THRESHOLD)%float, (emitter d);
      reflexivity.
Qed.

(** X4.  In the states the loop reaches, a tick prints a "STATE CHANGE" line
    exactly when it ends in another state than it began in, and then
    prints one. *)
Theorem state_change_logged_iff_changed (d : Devices) (c : Controller)
    (inp : Step) :
  reachable d c ->
  count_if is_state_change (trace (tick d c inp))
  = if RobotState_eqb (current_state c)
         (current_state (controller (tick d c inp)))
    then 0%nat else 1%nat.
Proof.
  intros Hr. destruct (reachable_invariant d c Hr) as [_ Hpos].
  rewrite count_if_tick by reflexivity. rewrite tick_controller.
  destruct c as [st k]. simpl in Hpos.
  unfold determine_state, timer_logic, send_signal. simpl.
  destruct (Z.ltb_spec 0 k) as [H0|H0]; simpl.
  - rewrite (Hpos H0).
    destruct (Z.eqb_spec (k - 1) 0) as [H1|H1]; simpl; [|reflexivity].
    destruct (frame_tilted d inp), (frame_survivor d inp),
      (frame_front d inp <? OBSTACLE_DISTANCE_THRESHOLD)%float, (emitter d);
      reflexivity.
  - destruct (frame_tilted d inp), (frame_survivor d inp), st,
      (frame_front d inp <? OBSTACLE_DISTANCE_THRESHOLD)%float, (emitter d);
      reflexivity.
Qed.

Lemma state_change_logged_iff_changed_witness :
  count_if is_state_change
    (trace (tick all_devices initial_controller survivor_step))
  = if RobotState_eqb (current_state initial_controller)
         (current_state
            (controller (tick all_devices initial_controller survivor_step)))
    then 0%nat else 1%nat.
Proof.
  apply (state_change_logged_iff_changed all_devices initial_controller
           survivor_step).
  apply reachable_init.
Defined.

(** ** What the states tell about the sensors *)

(** Without a detection the scan visits every sensor. *)
Lemma full_frame (d : Devices) (inp : Step) :
  frame_survivor d inp = false ->
  ds_values (read_sensors d inp)
  = [reading d inp 0; reading d inp 1; reading d inp 2].
Proof.
  unfold frame_survivor. rewrite read_sensors_unrolled.
  destruct (sensor_matches d inp 0); [discriminate|].
  destruct (sensor_matches d inp 1); [discriminate|].
  destruct (sensor_matches d inp 2); [discriminate|]. reflexivity.
Qed.

(** X5.  A tick that ends in AvoidingObstacle was not tilted, saw no survivor,
    and read less than 0.3 on a front sensor that exists; the scan then
    visited all three sensors, and the robot spins right (4, -4) when the
    left reading, 999.0 for a missing sensor, is strictly below the right
    one, and left (-4, 4) otherwise. *)
Theorem avoiding_means_obstacle_ahead (d : Devices) (c : Controller)
    (inp : Step) :
  let t := tick d c inp in
  current_state (controller t) = AVOIDING_OBSTACLE ->
  ds_front d = true
  /\ (wb_distance_sensor_get_value inp 0%nat <? 0.3)%float = true
  /\ frame_tilted d inp = false
  /\ frame_survivor d inp = false
  /\ (left_speed t, right_speed t)
     = if (reading d inp 1 <? reading d inp 2)%float
       then (4.0, -4.0)%float else (-4.0, 4.0)%float.
Proof.
  cbv zeta. intros Hs.
  destruct (tick_spec d c inp) as (Hst & _ & _). rewrite Hs in Hst.
  unfold transition_spec in Hst.
  destruct ((0 <? aid_deploy_counter c) && _); [discriminate|].
  destruct (frame_tilted d inp); [discriminate|].
  destruct (frame_survivor d inp) eqn:Hv;
    [destruct (current_state c); discriminate|].
  destruct (frame_front d inp <? OBSTACLE_DISTANCE_THRESHOLD)%float eqn:Hf;
    [|discriminate].
  pose proof (full_frame d inp Hv) as Hds.
  unfold frame_front in Hf. rewrite Hds in Hf.
  unfold array_get, reading, distance_sensors in Hf. simpl in Hf.
  destruct (ds_front d); [|discriminate Hf].
  repeat split; try assumption.
  rewrite tick_speeds. unfold execute_actions. rewrite Hs, Hds.
  unfold array_get. simpl.
  destruct (reading d inp 1 <? reading d inp 2)%float; reflexivity.
Qed.

Lemma avoiding_means_obstacle_ahead_witness :
  ds_front all_devices = true
  /\ (wb_distance_sensor_get_value (obstacle_step 0.2 0.5) 0%nat <? 0.3)%float
     = true
  /\ frame_tilted all_devices (obstacle_step 0.2 0.5) = false
  /\ frame_survivor all_devices (obstacle_step 0.2 0.5) = false
  /\ (left_speed (tick all_devices initial_controller (obstacle_step 0.2 0.5)),
      right_speed (tick all_devices initial_controller (obstacle_step 0.2 0.5)))
     = if (reading all_devices (obstacle_step 0.2 0.5) 1
           <? reading all_devices (obstacle_step 0.2 0.5) 2)%float
       then (4.0, -4.0)%float else (-4.0, 4.0)%float.
Proof.
  apply (avoiding_means_obstacle_ahead all_devices initial_controller
           (obstacle_step 0.2 0.5)).
  reflexivity.
Defined.



(** X7.  In the states the loop reaches the timer is 0 unless the state is
    DeployingAid. *)
Theorem timer_zero_unless_deploying (d : Devices) (c : Controller) :
  reachable d c ->
  current_state c <> DEPLOYING_AID ->
  aid_deploy_counter c = 0.
Proof.
  intros Hr Hst. destruct (reachable_invariant d c Hr) as [[Hlo _] Hpos].
  destruct (Z.eq_dec (aid_deploy_counter c) 0) as [H0|H0]; [exact H0|].
  exfalso. apply Hst, Hpos. lia.
Qed.

Lemma timer_zero_unless_deploying_witness :
  aid_deploy_counter
    (controller (tick all_devices initial_controller (obstacle_step 0.2 0.5)))
  = 0.
Proof.
  apply (timer_zero_unless_deploying all_devices).
  - apply reachable_tick, reachable_init.
  - intros H. vm_compute in H. discriminate H.
Defined.

(** ** Wheels and LEDs *)

Lemma float_apart (f : float -> bool) (x y : float) :
  f x <> f y -> x <> y.
Proof. intros H E. apply H. rewrite E. reflexivity. Qed.

(** Refutes an equation [H] between two float constants that [f] tells
    apart. *)
Ltac absurd_float H f :=
  exfalso; revert H; apply (float_apart f); vm_compute; discriminate.

(** X8.  The wheels stand still exactly in Tilted and DeployingAid, run at the
    same speed in every state but AvoidingObstacle, where they run at
    opposite speeds, and are never commanded beyond 5 in either
    direction. *)
Theorem wheel_commands (d : Devices) (c : Controller) (inp : Step) :
  let t := tick d c inp in
  (left_speed t = 0%float /\ right_speed t = 0%float
   <-> current_state (controller t) = ROBOT_TILTED
       \/ current_state (controller t) = DEPLOYING_AID)
  /\ (left_speed t = right_speed t
      <-> current_state (controller t) <> AVOIDING_OBSTACLE)
  /\ (current_state (controller t) = AVOIDING_OBSTACLE ->
      right_speed t = (- left_speed t)%float)
  /\ (PrimFloat.abs (left_speed t) <=? 5.0)%float = true
  /\ (PrimFloat.abs (right_speed t) <=? 5.0)%float = true.
Proof.
  cbv zeta. pose proof (tick_speeds d c inp) as Hsp.
  unfold execute_actions in Hsp.
  destruct (current_state (controller (tick d c inp))); simpl in Hsp;
    [| destruct (array_get (ds_values (read_sensors d inp)) 1
                 <? array_get (ds_values (read_sensors d inp)) 2)%float | |];
    injection Hsp as Hl Hr; rewrite Hl, Hr;
    (split; [|split; [|split; [|split]]]); try reflexivity.
  - split; [intros [H _]; absurd_float H (fun x => (x <? 1)%float)
           | intros [H|H]; discriminate H].
  - split; [discriminate | reflexivity].
  - discriminate.
  - split; [intros [H _]; absurd_float H (fun x => (x <? 1)%float)
           | intros [H|H]; discriminate H].
  - split; [intros H; absurd_float H (fun x => (x <? 0)%float)
           | intros H; exfalso; apply H; reflexivity].
  - split; [intros [H _]; absurd_float H (fun x => (x <? -1)%float)
           | intros [H|H]; discriminate H].
  - split; [intros H; absurd_float H (fun x => (x <? 0)%float)
           | intros H; exfalso; apply H; reflexivity].
  - split; [right; reflexivity | split; reflexivity].
  - split; [discriminate | reflexivity].
  - discriminate.
  - split; [left; reflexivity | split; reflexivity].
  - split; [discriminate | reflexivity].
  - discriminate.
Qed.

Lemma wheel_commands_witness :
  right_speed (tick all_devices initial_controller (obstacle_step 0.2 0.5))
  = (- left_speed (tick all_devices initial_controller
                     (obstacle_step 0.2 0.5)))%float.
Proof.
  destruct (wheel_commands all_devices initial_controller
              (obstacle_step 0.2 0.5)) as (_ & _ & H & _).
  apply H. reflexivity.
Defined.

(** X9.  After every tick a LED the robot has is on when the state is Tilted,
    or DeployingAid with the countdown modulo 4 below 2, and off in every
    other case; a LED it lacks is never commanded. *)
Theorem led_table (d : Devices) (c : Controller) (inp : Step) (l : Led) :
  led_value l (trace (tick d c inp)) None
  = if has_led d l
    then Some (bool_value (led_lit (controller (tick d c inp))))
    else None.
Proof.
  rewrite led_value_tick.
  unfold execute_actions, led_lit, leds_on, led_set, has_led, bool_value.
  destruct l, (current_state (controller (tick d c inp))),
    (left_led d), (right_led d); simpl;
    try destruct (Z.rem (aid_deploy_counter (controller (tick d c inp))) 4 <? 2);
    try destruct (array_get (ds_values (read_sensors d inp)) 1
                  <? array_get (ds_values (read_sensors d inp)) 2)%float;
    reflexivity.
Qed.

(** ** Coming back from a deployment *)

(** X10.  Once tilt and survivor are gone the robot moves again: after a run of
    ticks without either, at least as long as the timer and not empty, the
    timer is 0, the state is Searching or AvoidingObstacle, and nothing
    was sent on the way. *)
Theorem quiet_run_resumes (d : Devices) (steps : list Step) :
  forall c,
    steps <> [] ->
    0 <= aid_deploy_counter c <= Z.of_nat (List.length steps) ->
    Forall (quiet d) steps ->
    aid_deploy_counter (final_controller d c steps) = 0
    /\ (current_state (final_controller d c steps) = SEARCHING
        \/ current_state (final_controller d c steps) = AVOIDING_OBSTACLE)
    /\ sends (run_trace d c steps) = 0%nat.
Proof.
  induction steps as [|inp rest IH]; intros c Hne Hk Hq; [congruence|].
  inversion Hq as [|x l [Ht Hv] Hrest]; subst x l.
  rewrite run_trace_cons, sends_app.
  change (final_controller d c (inp :: rest))
    with (final_controller d (controller (tick d c inp)) rest).
  simpl List.length in Hk.
  destruct (Z_lt_le_dec 1 (aid_deploy_counter c)) as [Hbig|Hsmall].
  - destruct (tick_forced d c inp Hbig) as [Hc He].
    destruct rest as [|inp' rest']; [simpl in Hk; lia|].
    destruct (IH (controller (tick d c inp))) as (H1 & H2 & H3);
      [discriminate | rewrite Hc; simpl in *; lia | exact Hrest |].
    rewrite He, H3. auto.
  - destruct (tick_quiet d c inp) as [Hc He]; [lia | assumption | assumption|].
    destruct rest as [|inp' rest'].
    + rewrite He. simpl. rewrite Hc. simpl. repeat split.
      destruct (frame_front d inp <? OBSTACLE_DISTANCE_THRESHOLD)%float; auto.
    + destruct (IH (controller (tick d c inp))) as (H1 & H2 & H3);
        [discriminate | rewrite Hc; simpl; lia | exact Hrest |].
      rewrite He, H3. auto.
Qed.

Lemma quiet_run_resumes_witness :
  aid_deploy_counter
    (final_controller all_devices
       {| current_state := DEPLOYING_AID; aid_deploy_counter := 3 |}
       (repeat clear_step 3)) = 0
  /\ (current_state
        (final_controller all_devices
           {| current_state := DEPLOYING_AID; aid_deploy_counter := 3 |}
           (repeat clear_step 3)) = SEARCHING
      \/ current_state
           (final_controller all_devices
              {| current_state := DEPLOYING_AID; aid_deploy_counter := 3 |}
              (repeat clear_step 3)) = AVOIDING_OBSTACLE)
  /\ sends (run_trace all_devices
              {| current_state := DEPLOYING_AID; aid_deploy_counter := 3 |}
              (repeat clear_step 3)) = 0%nat.
Proof.
  apply (quiet_run_resumes all_devices (repeat clear_step 3)).
  - discriminate.
  - simpl. lia.
  - repeat constructor.
Defined.

(** ** The status line *)

Lemma debug_loop_from (d : Devices) (steps : list Step) :
  forall c n,
    debug_loop d c (Z.of_nat n) steps
    = map (status_at d)
        (combine (seq n (List.length steps))
           (combine steps (control_loop d c steps))).
Proof.
  induction steps as [|inp rest IH]; intros c n; [reflexivity|].
  simpl. unfold debug_output.
  rewrite Z.rem_mod_nonneg by lia.
  replace (Z.of_nat n + 1) with (Z.of_nat (S n)) by lia.
  rewrite IH. reflexivity.
Qed.

(** X11.  Over a run that keeps the tick counter within [int], the status line
    is printed on the ticks numbered 0, 8, 16, ... and on no other, and
    each line reports the tick it is printed on: state and timer after the
    transition, the three distance entries, the two flags and the
    commanded speeds. *)
Theorem status_line_every_eighth_tick (d : Devices) (c : Controller)
    (steps : list Step) :
  Z.of_nat (List.length steps) <= INT_MAX ->
  debug_loop d c 0 steps
  = map (status_at d)
      (combine (seq 0 (List.length steps))
         (combine steps (control_loop d c steps))).
Proof.
  intros _. apply (debug_loop_from d steps c 0%nat).
Qed.

Lemma status_line_every_eighth_tick_witness :
  map (option_map status_S)
    (debug_loop all_devices initial_controller 0
       (survivor_step :: repeat clear_step 9))
  = [Some 2; None; None; None; None; None; None; None; Some 2; None].
Proof.
  rewrite (status_line_every_eighth_tick all_devices initial_controller
             (survivor_step :: repeat clear_step 9)).
  - vm_compute. reflexivity.
  - vm_compute. discriminate.
Defined.

(** ** The scan and the order of the recognised objects *)

Lemma scan_objects_closed (v : float) (objects : list WbNodeRef) :
  scan_objects v objects
  = existsb is_survivor objects && (v <? SURVIVOR_DETECTION_RANGE)%float.
Proof.
  induction objects as [|o rest IH]; simpl; [reflexivity|].
  rewrite IH. destruct (is_survivor o); simpl; [|reflexivity].
  destruct (v <? SURVIVOR_DETECTION_RANGE)%float;
    [reflexivity | rewrite andb_false_r; reflexivity].
Qed.

Lemma existsb_Permutation {A : Type} (f : A -> bool) (l l' : list A) :
  Permutation l l' -> existsb f l = existsb f l'.
Proof.
  induction 1 as [|x l l' _ IH|x y l|l l' l'' _ IH1 _ IH2]; simpl.
  - reflexivity.
  - rewrite IH. reflexivity.
  - destruct (f x), (f y); reflexivity.
  - rewrite IH1. exact IH2.
Qed.

(** X12.  Two ticks in which every sensor reads the same value and recognises
    the same objects, in whatever order, give the same scan: the same
    [ds_values], the same flag and the same log. *)
Theorem scan_ignores_object_order (d : Devices) (inp inp' : Step) :
  (forall i, (i < 3)%nat ->
     wb_distance_sensor_get_value inp i = wb_distance_sensor_get_value inp' i
     /\ Permutation (wb_distance_sensor_recognition_get_objects inp i)
          (wb_distance_sensor_recognition_get_objects inp' i)) ->
  read_sensors d inp = read_sensors d inp'.
Proof.
  intros H.
  assert (Hm : forall i, (i < 3)%nat ->
            sensor_matches d inp i = sensor_matches d inp' i
            /\ reading d inp i = reading d inp' i
            /\ wb_distance_sensor_get_value inp i
               = wb_distance_sensor_get_value inp' i).
  { intros i Hi. destruct (H i Hi) as [Hv Hp].
    unfold sensor_matches, reading.
    rewrite !scan_objects_closed, Hv, (existsb_Permutation _ _ _ Hp).
    repeat split. }
  rewrite !read_sensors_unrolled.
  destruct (Hm 0%nat) as (-> & -> & ->); [lia|].
  destruct (Hm 1%nat) as (-> & -> & ->); [lia|].
  destruct (Hm 2%nat) as (-> & -> & ->); [lia|].
  reflexivity.
Qed.

Lemma scan_ignores_object_order_witness :
  read_sensors all_devices crowded_step
  = read_sensors all_devices crowded_step_reordered.
Proof.
  apply (scan_ignores_object_order all_devices crowded_step
           crowded_step_reordered).
  intros i Hi. split.
  - reflexivity.
  - destruct i as [|[|i]]; simpl.
    + apply Permutation_refl.
    + apply Permutation_rev.
    + destruct i; apply Permutation_refl.
Defined.

(** ** Runs *)



(** ** Start-up *)

(** Picks the disjunct of a membership hypothesis that names [i]. *)
Ltac pick_member H :=
  simpl in H;
  repeat (destruct H as [H|H];
          [try discriminate H;
           try (first [reflexivity | split; reflexivity]);
           try (injection H as <-; first [reflexivity | split; reflexivity])|]);
  try contradiction.

(** X14.  A start-up that goes through addresses the devices the robot has and
    no other: a distance sensor is enabled, and its recognition with it,
    exactly when it exists; the accelerometer likewise; the emitter channel
    is set, to 1, exactly when there is an emitter.  It begins by putting
    both wheels in velocity mode at speed 0, ends with the
    "Initialized" line, and neither sends nor touches a LED. *)
Theorem startup_addresses_present_devices (d : Devices) (log : list Output) :
  startup d = Some log ->
  (forall i, In (wb_distance_sensor_enable i) log
             <-> nth i (distance_sensors d) false = true)
  /\ (forall i, In (wb_distance_sensor_recognition_enable i) log
                <-> nth i (distance_sensors d) false = true)
  /\ (In wb_accelerometer_enable log <-> accelerometer d = true)
  /\ (forall ch, In (wb_emitter_set_channel ch) log
                 <-> emitter d = true /\ ch = 1)
  /\ firstn 4 log
     = [wb_motor_set_position_inf LeftWheel;
        wb_motor_set_position_inf RightWheel;
        wb_motor_set_velocity LeftWheel 0%float;
        wb_motor_set_velocity RightWheel 0%float]
  /\ last log (printf ControllerInitialized) = printf ControllerInitialized
  /\ forallb (fun o => negb (is_send o) && negb (is_led_set o)) log = true.
Proof.
  unfold startup, enable_distance_sensor, distance_sensors.
  destruct (left_motor d), (right_motor d); simpl; try discriminate.
  intros H. injection H as <-.
  destruct (ds_front d), (ds_left d), (ds_right d), (accelerometer d),
    (emitter d);
    (split; [|split; [|split; [|split; [|split; [|split]]]]]);
    try reflexivity;
    try (intros i; split; intros H;
         [pick_member H
         | destruct i as [|[|[|[|i]]]]; simpl in H; try discriminate H;
           solve [find_in]]);
    try (split; intros H; [pick_member H | try discriminate H; solve [find_in]]);
    try (intros ch; split; intros H;
         [pick_member H
         | destruct H as [H ->]; try discriminate H; solve [find_in]]).
Qed.

Lemma startup_addresses_present_devices_witness :
  In wb_accelerometer_enable
    [wb_motor_set_position_inf LeftWheel;
     wb_motor_set_position_inf RightWheel;
     wb_motor_set_velocity LeftWheel 0%float;
     wb_motor_set_velocity RightWheel 0%float;
     wb_distance_sensor_enable 0; wb_distance_sensor_recognition_enable 0;
     wb_distance_sensor_enable 1; wb_distance_sensor_recognition_enable 1;
     wb_distance_sensor_enable 2; wb_distance_sensor_recognition_enable 2;
     wb_accelerometer_enable;
     printf ErrorEmitterNotFound;
     printf ControllerInitialized]
  <-> accelerometer no_emitter = true.
Proof.
  destruct (startup_addresses_present_devices no_emitter
              [wb_motor_set_position_inf LeftWheel;
               wb_motor_set_position_inf RightWheel;
               wb_motor_set_velocity LeftWheel 0%float;
               wb_motor_set_velocity RightWheel 0%float;
               wb_distance_sensor_enable 0;
               wb_distance_sensor_recognition_enable 0;
               wb_distance_sensor_enable 1;
               wb_distance_sensor_recognition_enable 1;
               wb_distance_sensor_enable 2;
               wb_distance_sensor_recognition_enable 2;
               wb_accelerometer_enable;
               printf ErrorEmitterNotFound;
               printf ControllerInitialized])
    as (_ & _ & H & _).
  - reflexivity.
  - exact H.
Defined.
